(** * Real-estate depreciation and tax scenario simulator: the formula layer

    A shallow embedding of the helper functions of [main.py]
    ([calculate_depreciation], [multi_year_cash_flow], [calculate_sale_tax],
    [simulate_1031_exchange], [get_asset_breakdown],
    [compute_operating_cash_flow]) and the properties of the specification
    that speak about them.

    Numbers.  The program computes with Python numbers (ints read from the
    widgets, floats as soon as a division or a decimal literal is involved).
    They are embedded as exact rationals [Q]: every operation is the
    mathematical one, without binary rounding.  The only arithmetic failure
    of the source, division by zero, is kept ([ZeroDivisionError]).  The
    properties that rounding affects are stated over rounded arithmetic
    instead (see [PyFloat], [rounded] and [binary64]). *)

From Stdlib Require Import ZArith QArith Qround Qminmax Qabs Qpower Lia Lqa List Sorted.
From Stdlib Require Import Floats Uint63.
From stdpp Require Import gmap strings.
Import ListNotations.

Local Open Scope Z_scope.

(** ** Exceptions and the error monad *)

(** The exceptions the helper functions can raise: [ZeroDivisionError] from
    [/]; from pandas, [KeyError] when a label is absent from the index, and
    [ValueError] when a label selects several rows and the resulting Series
    is used as a condition. *)
Inductive exn : Set :=
| ZeroDivisionError
| KeyError
| ValueError.

Inductive result (A : Type) : Type :=
| Ok (a : A)
| Raise (e : exn).

Arguments Ok {A} a.
Arguments Raise {A} e.

Definition bind {A B : Type} (r : result A) (k : A -> result B) : result B :=
  match r with
  | Ok a => k a
  | Raise e => Raise e
  end.

Notation "'do' x <- r ; k" := (bind r (fun x => k))
  (at level 10, x name, r at level 100, k at level 200).

(** Python's true division [a / b]. *)
Definition py_truediv (a b : Q) : result Q :=
  if Qeq_bool b 0 then Raise ZeroDivisionError else Ok (a / b)%Q.

(** The comparison [a > b]. *)
Definition Qgt_bool (a b : Q) : bool := negb (Qle_bool a b).

(** Python's [max(a, 0)]: the second argument only when it is strictly
    greater than the first. *)
Definition py_max0 (a : Q) : Q :=
  if Qgt_bool 0 a then 0%Q else a.

(** Python's [range(start, stop)]. *)
Definition py_range (start stop : Z) : list Z :=
  map (fun i => start + Z.of_nat i) (seq 0 (Z.to_nat (stop - start))).

(** The number of hundredths shown by the format [{:,.2f}]: the nearest
    multiple of 0.01, a tie going to the even one. *)
Definition format_2f (x : Q) : Z :=
  let scaled := (x * 100)%Q in
  let low := Qfloor scaled in
  let rest := (scaled - inject_Z low)%Q in
  match (rest ?= 1 # 2)%Q with
  | Lt => low
  | Gt => low + 1
  | Eq => if Z.even low then low else low + 1
  end.

(** ** DepreciationEngine *)

(** [calculate_depreciation(property_value, land_value, dep_years, bonus_percent)] *)
Definition calculate_depreciation
    (property_value land_value dep_years bonus_percent : Q) : result (Q * Q * Q) :=
  let building_value := (property_value - land_value)%Q in
  let bonus_depreciation := (building_value * bonus_percent)%Q in
  do normal_depreciation <- py_truediv (building_value - bonus_depreciation) dep_years;
  let first_year_dep := (bonus_depreciation + normal_depreciation)%Q in
  Ok (bonus_depreciation, normal_depreciation, first_year_dep).

(** One row of the depreciation schedule (the four columns of the frame). *)
Record DepreciationRow : Set := {
  Bonus_Depreciation : Q;
  Normal_Depreciation : Q;
  Total_Depreciation : Q;
  Cumulative_Depreciation : Q
}.

(** A pandas DataFrame: its rows in order, each under its index label. *)
Definition DataFrame (A : Type) : Type := list (Z * A).

(** [df[column]]: the values of one column, in row order. *)
Definition column {A : Type} (f : A -> Q) (df : DataFrame A) : list Q :=
  map (fun r => f (snd r)) df.

(** [df.index] *)
Definition index {A : Type} (df : DataFrame A) : list Z := map fst df.

(** [df.loc[label]] read as one row.  An absent label raises [KeyError]; a
    label carried by several rows selects a sub-frame, whose use as a
    scalar in a condition raises [ValueError]. *)
Definition loc {A : Type} (df : DataFrame A) (label : Z) : result A :=
  match List.filter (fun r => fst r =? label) df with
  | [] => Raise KeyError
  | [r] => Ok (snd r)
  | _ :: _ :: _ => Raise ValueError
  end.

(** The body of the [for year in range(1, years+1)] loop of
    [multi_year_cash_flow], threading [cumulative]; the row written by
    [df.loc[year] = ...] is emitted under the label [year]. *)
Fixpoint depreciation_rows (annual_normal_dep bonus_dep dep_years : Q)
    (years : list Z) (cumulative : Q) : DataFrame DepreciationRow :=
  match years with
  | [] => []
  | year :: rest =>
      let '(norm, bonus) :=
        if year =? 1 then (annual_normal_dep, bonus_dep)
        else ((if Qle_bool (inject_Z year) dep_years then annual_normal_dep else 0%Q), 0%Q) in
      let total := (bonus + norm)%Q in
      let cumulative := (cumulative + total)%Q in
      (year, {| Bonus_Depreciation := bonus;
                Normal_Depreciation := norm;
                Total_Depreciation := total;
                Cumulative_Depreciation := cumulative |})
        :: depreciation_rows annual_normal_dep bonus_dep dep_years rest cumulative
  end.

(** [multi_year_cash_flow(property_value, land_value, dep_years, bonus_percent, years)] *)
Definition multi_year_cash_flow
    (property_value land_value dep_years bonus_percent : Q) (years : Z)
    : result (DataFrame DepreciationRow) :=
  let building_value := (property_value - land_value)%Q in
  let bonus_dep := (building_value * bonus_percent)%Q in
  let remaining_basis := (building_value - bonus_dep)%Q in
  do annual_normal_dep <- py_truediv remaining_basis dep_years;
  Ok (depreciation_rows annual_normal_dep bonus_dep dep_years
        (py_range 1 (years + 1)) 0%Q).

(** ** SaleTaxEngine *)

(** The dictionary returned by [calculate_sale_tax], one field per key. *)
Record SaleTax : Set := {
  Adjusted_Basis : Q;
  Total_Gain : Q;
  Depreciation_Recapture_Tax : Q;
  Capital_Gains_Tax : Q;
  Total_Tax : Q
}.

(** The default rates of [calculate_sale_tax] and [simulate_1031_exchange]. *)
Definition default_recapture_rate : Q := 25 # 100.
Definition default_capital_gains_rate : Q := 20 # 100.

(** [calculate_sale_tax(cost_basis, sale_price, cumulative_depreciation,
    recapture_rate, capital_gains_rate)] *)
Definition calculate_sale_tax
    (cost_basis sale_price cumulative_depreciation recapture_rate capital_gains_rate : Q)
    : SaleTax :=
  let adjusted_basis := (cost_basis - cumulative_depreciation)%Q in
  let total_gain := (sale_price - adjusted_basis)%Q in
  let dep_recapture_tax := (cumulative_depreciation * recapture_rate)%Q in
  let remaining_gain := (total_gain - cumulative_depreciation)%Q in
  let cap_gains_tax := (py_max0 remaining_gain * capital_gains_rate)%Q in
  let total_tax := (dep_recapture_tax + cap_gains_tax)%Q in
  {| Adjusted_Basis := adjusted_basis;
     Total_Gain := total_gain;
     Depreciation_Recapture_Tax := dep_recapture_tax;
     Capital_Gains_Tax := cap_gains_tax;
     Total_Tax := total_tax |}.

(** ** ExchangeSimulator *)

(** [simulate_1031_exchange(sale_price, total_depreciation, cost_basis,
    reinvested_value, recapture_rate, capital_gains_rate)] *)
Definition simulate_1031_exchange
    (sale_price total_depreciation cost_basis reinvested_value
     recapture_rate capital_gains_rate : Q) : Q :=
  let tax_data :=
    calculate_sale_tax cost_basis sale_price total_depreciation
      recapture_rate capital_gains_rate in
  Total_Tax tax_data.

(** ** AssetBreakdownCatalog *)

(** An asset class: (percentage of building value, depreciation life in
    years, sample asset types). *)
Definition AssetClass : Type := Q * Q * string.

(** The inner dictionaries keep their insertion order, which the caller
    iterates; the outer dictionary is only looked up by key. *)
Definition breakdown : gmap string (list (string * AssetClass)) :=
  list_to_map [
    ("Multifamily"%string, [
       ("5-year Assets"%string, (15 # 100, 5%Q, "Appliances, Carpets, Furniture"%string));
       ("15-year Assets"%string, (25 # 100, 15%Q, "Land Improvements, Parking Lots, Landscaping"%string));
       ("27.5-year Assets"%string, (60 # 100, 55 # 2, "Structural Components, Roof, Walls, HVAC (structural)"%string))
     ]);
    ("Hotel"%string, [
       ("5-year Assets"%string, (25 # 100, 5%Q, "Furniture, Fixtures, Equipment"%string));
       ("15-year Assets"%string, (25 # 100, 15%Q, "Renovations, Interior Improvements"%string));
       ("39-year Assets"%string, (50 # 100, 39%Q, "Building Shell, Structural Components"%string))
     ]);
    ("Retail"%string, [
       ("5-year Assets"%string, (10 # 100, 5%Q, "Display Units, POS Equipment"%string));
       ("15-year Assets"%string, (25 # 100, 15%Q, "Store Fixtures, Signage, Interior Finishes"%string));
       ("39-year Assets"%string, (65 # 100, 39%Q, "Building Structure, Roof, Walls"%string))
     ]);
    ("Office"%string, [
       ("5-year Assets"%string, (10 # 100, 5%Q, "Furniture, Computers, Office Equipment"%string));
       ("15-year Assets"%string, (20 # 100, 15%Q, "Partitioning, Specialized Lighting, Finishes"%string));
       ("39-year Assets"%string, (70 # 100, 39%Q, "Building Shell, Structural Elements"%string))
     ])
  ].

(** [get_asset_breakdown(property_type)]: [breakdown.get(property_type, {})] *)
Definition get_asset_breakdown (property_type : string) : list (string * AssetClass) :=
  default [] (breakdown !! property_type).

(** The property types offered by the application. *)
Definition property_types : list string :=
  ["Multifamily"; "Hotel"; "Retail"; "Office"]%string.

(** The percentage of building value of an asset class. *)
Definition percent_of_building_value (c : AssetClass) : Q := fst (fst c).

(** The sum of the percentages of a breakdown. *)
Definition percent_total (b : list (string * AssetClass)) : Q :=
  fold_right Qplus 0%Q (map (fun kv => percent_of_building_value (snd kv)) b).

(** ** OperatingCashFlowEngine *)

(** One dictionary appended to [cash_flow_data], one field per key. *)
Record CashFlowRow : Set := {
  Year : Z;
  NOI : Q;
  Depreciation : Q;
  Taxable_Operating_Income : Q;
  Tax_Liability : Q;
  Operating_Cash_Flow : Q;
  Cumulative_Operating_Cash_Flow : Q
}.

(** The body of the [for year in df_dep.index] loop of
    [compute_operating_cash_flow], threading [cumulative]. *)
Fixpoint cash_flow_rows (df_dep : DataFrame DepreciationRow)
    (rental_income operating_expenses tax_bracket : Q)
    (years : list Z) (cumulative : Q) : result (list CashFlowRow) :=
  match years with
  | [] => Ok []
  | year :: rest =>
      do row <- loc df_dep year;
      let depreciation := Total_Depreciation row in
      let noi := (rental_income - operating_expenses)%Q in
      let taxable_operating_income := (noi - depreciation)%Q in
      let tax_liability :=
        if Qgt_bool taxable_operating_income 0
        then (taxable_operating_income * (tax_bracket / 100))%Q
        else 0%Q in
      let operating_cf := (noi - tax_liability)%Q in
      let cumulative := (cumulative + operating_cf)%Q in
      do tail <- cash_flow_rows df_dep rental_income operating_expenses tax_bracket
                   rest cumulative;
      Ok ({| Year := year;
             NOI := noi;
             Depreciation := depreciation;
             Taxable_Operating_Income := taxable_operating_income;
             Tax_Liability := tax_liability;
             Operating_Cash_Flow := operating_cf;
             Cumulative_Operating_Cash_Flow := cumulative |} :: tail)
  end.

(** [compute_operating_cash_flow(df_dep, rental_income, operating_expenses, tax_bracket)] *)
Definition compute_operating_cash_flow (df_dep : DataFrame DepreciationRow)
    (rental_income operating_expenses tax_bracket : Q) : result (list CashFlowRow) :=
  cash_flow_rows df_dep rental_income operating_expenses tax_bracket (index df_dep) 0%Q.

(** ** The application script: the callers of the helper functions

    The script below the helpers reads its inputs from the sidebar and fills
    six tabs.  Each tab's computation is embedded as a function of the
    inputs it reads; rendering is left out. *)

(** Python's [d[key]] on a dictionary: an absent key raises [KeyError]. *)
Definition py_getitem {V : Type} (d : gmap string V) (key : string) : result V :=
  match d !! key with
  | Some v => Ok v
  | None => Raise KeyError
  end.

(** [default_bonus] of the sidebar, and [default_bonuses] of tab 5: the same
    dictionary, written twice in the script. *)
Definition default_bonus : gmap string Q :=
  list_to_map [
    ("Multifamily"%string, 4 # 10);
    ("Hotel"%string, 5 # 10);
    ("Retail"%string, 35 # 100);
    ("Office"%string, 3 # 10)
  ].

(** The integer shown by the format [{:.0f}]: the nearest integer, a tie
    going to the even one. *)
Definition format_0f (x : Q) : Z :=
  let low := Qfloor x in
  let rest := (x - inject_Z low)%Q in
  match (rest ?= 1 # 2)%Q with
  | Lt => low
  | Gt => low + 1
  | Eq => if Z.even low then low else low + 1
  end.

(** Tab 1: the year-1 figures and whether the first-year depreciation
    reaches the goal of 4,000,000 ([first_year_dep >= 4_000_000]). *)
Definition depreciation_overview
    (property_value land_value dep_years bonus_percent : Q) : result (Q * Q * Q * bool) :=
  do dep <- calculate_depreciation property_value land_value dep_years bonus_percent;
  let '(bonus_dep, normal_dep, first_year_dep) := dep in
  Ok (bonus_dep, normal_dep, first_year_dep, Qle_bool 4000000 first_year_dep).

(** One dictionary appended to [sale_data] in tab 3, one field per key. *)
Record SaleRow : Set := {
  Holding_Period : Z;
  Sale_Cumulative_Depreciation : Q;
  Sale_Adjusted_Basis : Q;
  Sale_Total_Gain : Q;
  Sale_Depreciation_Recapture_Tax : Q;
  Sale_Capital_Gains_Tax : Q;
  Sale_Total_Tax : Q
}.

(** The body of the [for year in df_dep.index] loop of tab 3;
    [calculate_sale_tax] is called with its default rates. *)
Fixpoint sale_rows (df_dep : DataFrame DepreciationRow) (cost_basis sale_price : Q)
    (years : list Z) : result (list SaleRow) :=
  match years with
  | [] => Ok []
  | year :: rest =>
      do row <- loc df_dep year;
      let cumulative_dep := Cumulative_Depreciation row in
      let tax_results :=
        calculate_sale_tax cost_basis sale_price cumulative_dep
          default_recapture_rate default_capital_gains_rate in
      do tail <- sale_rows df_dep cost_basis sale_price rest;
      Ok ({| Holding_Period := year;
             Sale_Cumulative_Depreciation := cumulative_dep;
             Sale_Adjusted_Basis := Adjusted_Basis tax_results;
             Sale_Total_Gain := Total_Gain tax_results;
             Sale_Depreciation_Recapture_Tax := Depreciation_Recapture_Tax tax_results;
             Sale_Capital_Gains_Tax := Capital_Gains_Tax tax_results;
             Sale_Total_Tax := Total_Tax tax_results |} :: tail)
  end.

(** Tab 3: the sale outcome for every holding period of the schedule, with
    [cost_basis = property_value]. *)
Definition sale_by_holding_period
    (property_value land_value dep_years bonus_percent : Q) (years : Z) (sale_price : Q)
    : result (list SaleRow) :=
  do df_dep <- multi_year_cash_flow property_value land_value dep_years bonus_percent years;
  let cost_basis := property_value in
  sale_rows df_dep cost_basis sale_price (index df_dep).

(** Tab 4: the tax deferred by the exchange, computed from the first-year
    depreciation of tab 1; [None] when the box is not ticked. *)
Definition exchange_simulation
    (property_value land_value dep_years bonus_percent sale_price : Q)
    (simulate_exchange : bool) (reinvested_value : Q) : result (option Q) :=
  do dep <- calculate_depreciation property_value land_value dep_years bonus_percent;
  let '(bonus_dep, normal_dep, first_year_dep) := dep in
  if simulate_exchange
  then Ok (Some (simulate_1031_exchange sale_price first_year_dep property_value
                   reinvested_value default_recapture_rate default_capital_gains_rate))
  else Ok None.

(** One dictionary appended to [comparisons] in tab 5; the bonus percentage
    is kept as the integer printed before the percent sign. *)
Record ComparisonRow : Set := {
  Property_Type : string;
  Bonus_Percent_Label : Z;
  Comparison_Bonus_Depreciation : Q;
  Comparison_Normal_Depreciation : Q;
  Total_First_Year_Depreciation : Q
}.

(** The body of the [for ptype in property_types] loop of tab 5. *)
Fixpoint comparison_rows (property_value land_value dep_years : Q)
    (ptypes : list string) : result (list ComparisonRow) :=
  match ptypes with
  | [] => Ok []
  | ptype :: rest =>
      do bonus_pct <- py_getitem default_bonus ptype;
      do dep <- calculate_depreciation property_value land_value dep_years bonus_pct;
      let '(bonus_dep, normal_dep, first_year_dep) := dep in
      do tail <- comparison_rows property_value land_value dep_years rest;
      Ok ({| Property_Type := ptype;
             Bonus_Percent_Label := format_0f (bonus_pct * 100);
             Comparison_Bonus_Depreciation := bonus_dep;
             Comparison_Normal_Depreciation := normal_dep;
             Total_First_Year_Depreciation := first_year_dep |} :: tail)
  end.

(** Tab 5: the comparison of the four property types. *)
Definition comparisons (property_value land_value dep_years : Q)
    : result (list ComparisonRow) :=
  comparison_rows property_value land_value dep_years property_types.

(** Tab 6: the operating cash flow over the depreciation schedule. *)
Definition operating_cash_flow_analysis
    (property_value land_value dep_years bonus_percent : Q) (years : Z)
    (rental_income operating_expenses tax_bracket : Q) : result (list CashFlowRow) :=
  do df_dep <- multi_year_cash_flow property_value land_value dep_years bonus_percent years;
  compute_operating_cash_flow df_dep rental_income operating_expenses tax_bracket.

(** ** The same computation in rounded arithmetic

    The exact rationals above leave out the rounding of Python's floats.
    Where a property of the schedule depends on it, the functions are taken
    over an interface of the number operations they use, with two
    implementations: rationals rounded after every operation by a function
    [rnd], and the binary64 floats of the machine. *)

(** The operations of Python floats used by the depreciation functions:
    the literal [0], [+], [-], [*], [/] (which raises on a zero divisor) and
    the comparison [year <= x] of an integer with a float, which Python
    carries out exactly. *)
Class PyFloat (num : Type) : Type := {
  f_zero : num;
  f_add : num -> num -> num;
  f_sub : num -> num -> num;
  f_mul : num -> num -> num;
  f_div : num -> num -> result num;
  f_year_le : Z -> num -> bool
}.

Module Num.

Section Generic.

Context {num : Type} (arith : PyFloat num).

(** One row of the depreciation schedule. *)
Record DepreciationRow : Type := {
  Bonus_Depreciation : num;
  Normal_Depreciation : num;
  Total_Depreciation : num;
  Cumulative_Depreciation : num
}.

(** [calculate_depreciation(property_value, land_value, dep_years, bonus_percent)] *)
Definition calculate_depreciation
    (property_value land_value dep_years bonus_percent : num) : result (num * num * num) :=
  let building_value := f_sub property_value land_value in
  let bonus_depreciation := f_mul building_value bonus_percent in
  do normal_depreciation <- f_div (f_sub building_value bonus_depreciation) dep_years;
  let first_year_dep := f_add bonus_depreciation normal_depreciation in
  Ok (bonus_depreciation, normal_depreciation, first_year_dep).

(** The body of the [for year in range(1, years+1)] loop of
    [multi_year_cash_flow], threading [cumulative]. *)
Fixpoint depreciation_rows (annual_normal_dep bonus_dep dep_years : num)
    (years : list Z) (cumulative : num) : DataFrame DepreciationRow :=
  match years with
  | [] => []
  | year :: rest =>
      let '(norm, bonus) :=
        if year =? 1 then (annual_normal_dep, bonus_dep)
        else ((if f_year_le year dep_years then annual_normal_dep else f_zero), f_zero) in
      let total := f_add bonus norm in
      let cumulative := f_add cumulative total in
      (year, {| Bonus_Depreciation := bonus;
                Normal_Depreciation := norm;
                Total_Depreciation := total;
                Cumulative_Depreciation := cumulative |})
        :: depreciation_rows annual_normal_dep bonus_dep dep_years rest cumulative
  end.

(** [multi_year_cash_flow(property_value, land_value, dep_years, bonus_percent, years)] *)
Definition multi_year_cash_flow
    (property_value land_value dep_years bonus_percent : num) (years : Z)
    : result (DataFrame DepreciationRow) :=
  let building_value := f_sub property_value land_value in
  let bonus_dep := f_mul building_value bonus_percent in
  let remaining_basis := f_sub building_value bonus_dep in
  do annual_normal_dep <- f_div remaining_basis dep_years;
  Ok (depreciation_rows annual_normal_dep bonus_dep dep_years
        (py_range 1 (years + 1)) f_zero).

End Generic.

Arguments Bonus_Depreciation {num} _.
Arguments Normal_Depreciation {num} _.
Arguments Total_Depreciation {num} _.
Arguments Cumulative_Depreciation {num} _.

End Num.

(** Rationals, every operation followed by the rounding [rnd]. *)
Definition rounded (rnd : Q -> Q) : PyFloat Q := {|
  f_zero := 0%Q;
  f_add a b := rnd (a + b)%Q;
  f_sub a b := rnd (a - b)%Q;
  f_mul a b := rnd (a * b)%Q;
  f_div a b := if Qeq_bool b 0 then Raise ZeroDivisionError else Ok (rnd (a / b)%Q);
  f_year_le year x := Qle_bool (inject_Z year) x
|}.

(** The binary64 floats of the machine, as Python has them.  The year is
    converted to a float for the comparison, which is exact for the years
    below 2^53. *)
Definition binary64 : PyFloat float := {|
  f_zero := 0%float;
  f_add := PrimFloat.add;
  f_sub := PrimFloat.sub;
  f_mul := PrimFloat.mul;
  f_div a b := if PrimFloat.eqb b 0%float then Raise ZeroDivisionError
               else Ok (PrimFloat.div a b);
  f_year_le year x := PrimFloat.leb (PrimFloat.of_uint63 (Uint63.of_Z year)) x
|}.

(** A row of rationals as a row of the exact schedule. *)
Definition exact_row (r : @Num.DepreciationRow Q) : DepreciationRow := {|
  Bonus_Depreciation := Num.Bonus_Depreciation r;
  Normal_Depreciation := Num.Normal_Depreciation r;
  Total_Depreciation := Num.Total_Depreciation r;
  Cumulative_Depreciation := Num.Cumulative_Depreciation r
|}.

(** [df[column]] of a frame of floats. *)
Definition float_column {A : Type} (f : A -> float) (df : DataFrame A) : list float :=
  map (fun r => f (snd r)) df.

(** The standard model of floating-point arithmetic, which binary64
    satisfies with [u = 2^-53] as long as no operation overflows or
    underflows: rounding is monotone, leaves a rounded number alone, and
    moves a number by at most the fraction [u] of its magnitude. *)
Class StandardModel (rnd : Q -> Q) (u : Q) : Prop := {
  rnd_monotone : forall x y : Q, (x <= y)%Q -> (rnd x <= rnd y)%Q;
  rnd_idempotent : forall x : Q, (rnd (rnd x) == rnd x)%Q;
  unit_roundoff : (0 <= u)%Q;
  rnd_error : forall x : Q, (Qabs (rnd x - x) <= u * Qabs x)%Q
}.

(** ** Vocabulary of the properties *)

(** A column that never decreases, resp. never increases, from one year to
    any later year. *)
Definition non_decreasing (l : list Q) : Prop := StronglySorted Qle l.
Definition non_increasing (l : list Q) : Prop :=
  StronglySorted (fun x y => (y <= x)%Q) l.

(** What tab 3 records for a holding period: the fields of
    [calculate_sale_tax] at the row's cumulative depreciation, with the
    default rates. *)
Definition sale_row_of_tax (cost_basis sale_price : Q) (r : SaleRow) : Prop :=
  let t := calculate_sale_tax cost_basis sale_price (Sale_Cumulative_Depreciation r)
             default_recapture_rate default_capital_gains_rate in
  Sale_Adjusted_Basis r = Adjusted_Basis t /\
  Sale_Total_Gain r = Total_Gain t /\
  Sale_Depreciation_Recapture_Tax r = Depreciation_Recapture_Tax t /\
  Sale_Capital_Gains_Tax r = Capital_Gains_Tax t /\
  Sale_Total_Tax r = Total_Tax t.

(** * Properties *)

Local Open Scope Q_scope.

(** ** Arithmetic helpers *)

Lemma py_truediv_zero (a b : Q) :
  b == 0 -> py_truediv a b = Raise ZeroDivisionError.
Proof.
  intros Hb. unfold py_truediv.
  apply Qeq_bool_iff in Hb. now rewrite Hb.
Qed.

Lemma py_truediv_nonzero (a b : Q) :
  ~ b == 0 -> py_truediv a b = Ok (a / b).
Proof.
  intros Hb. unfold py_truediv.
  destruct (Qeq_bool b 0) eqn:E; [| reflexivity].
  apply Qeq_bool_iff in E. contradiction.
Qed.

Lemma Qgt_bool_true (a b : Q) : Qgt_bool a b = true <-> b < a.
Proof.
  unfold Qgt_bool. rewrite negb_true_iff.
  destruct (Qle_bool a b) eqn:E.
  - apply Qle_bool_iff in E. split; [discriminate | intros H; lra].
  - split; [intros _ | reflexivity].
    apply Qnot_le_lt. intros H. apply Qle_bool_iff in H. congruence.
Qed.

Lemma Qgt_bool_false (a b : Q) : Qgt_bool a b = false <-> a <= b.
Proof.
  unfold Qgt_bool. rewrite negb_false_iff. apply Qle_bool_iff.
Qed.

Lemma Qle_bool_false (a b : Q) : Qle_bool a b = false <-> b < a.
Proof.
  rewrite <- Qgt_bool_true. unfold Qgt_bool. now rewrite negb_true_iff.
Qed.

Lemma Qdiv_nonneg (a b : Q) : 0 <= a -> 0 < b -> 0 <= a / b.
Proof.
  intros Ha Hb. unfold Qdiv.
  apply Qmult_le_0_compat; [exact Ha |].
  apply Qlt_le_weak, Qinv_lt_0_compat, Hb.
Qed.

(** ** calculate_depreciation *)

(** The formulas of [calculate_depreciation], on every input whose
    depreciation period is not zero. *)
Lemma calculate_depreciation_formula (property_value land_value dep_years bonus_percent : Q) :
  ~ dep_years == 0 ->
  calculate_depreciation property_value land_value dep_years bonus_percent =
    let building_value := property_value - land_value in
    let bonus := building_value * bonus_percent in
    let normal := (building_value - bonus) / dep_years in
    Ok (bonus, normal, bonus + normal).
Proof.
  intros Hd. unfold calculate_depreciation.
  rewrite (py_truediv_nonzero _ _ Hd). reflexivity.
Qed.

(** C1, as stated, fails: with a building value of -100 (and also with a
    depreciation period of -10 years) [calculate_depreciation] returns a
    triple instead of failing. *)
Lemma calculate_depreciation_invalid_input_returns :
  (100 - 200 <= 0 /\
   exists b n t, calculate_depreciation 100 200 10 (1 # 2) = Ok (b, n, t) /\
                 b == -50 /\ n == -5 /\ t == -55) /\
  (-10 <= 0 /\
   exists b n t, calculate_depreciation 200 100 (-10) (1 # 2) = Ok (b, n, t) /\
                 b == 50 /\ n == -5 /\ t == 45).
Proof.
  split; (split; [vm_compute; discriminate |]);
    do 3 eexists; (split; [vm_compute; reflexivity |]);
    repeat split; reflexivity.
Qed.

(** C1 (amended): [calculate_depreciation] validates nothing.  It fails
    exactly when the depreciation period is zero, and then with
    [ZeroDivisionError]; on every other input, a non-positive building value
    or a negative depreciation period included, it returns the unclamped
    values of the formulas. *)
Theorem calculate_depreciation_no_validation
    (property_value land_value dep_years bonus_percent : Q) :
  let building_value := property_value - land_value in
  let bonus := building_value * bonus_percent in
  let normal := (building_value - bonus) / dep_years in
  (dep_years == 0 ->
     calculate_depreciation property_value land_value dep_years bonus_percent
       = Raise ZeroDivisionError) /\
  (~ dep_years == 0 ->
     calculate_depreciation property_value land_value dep_years bonus_percent
       = Ok (bonus, normal, bonus + normal)).
Proof.
  cbv zeta. split; intros Hd.
  - unfold calculate_depreciation. now rewrite (py_truediv_zero _ _ Hd).
  - now rewrite (calculate_depreciation_formula _ _ _ _ Hd).
Qed.

Lemma calculate_depreciation_no_validation_witness :
  calculate_depreciation 100 100 0 (1 # 2) = Raise ZeroDivisionError /\
  calculate_depreciation 100 200 (-10) (1 # 2)
    = Ok ((100 - 200) * (1 # 2),
          ((100 - 200) - (100 - 200) * (1 # 2)) / (-10),
          (100 - 200) * (1 # 2) + ((100 - 200) - (100 - 200) * (1 # 2)) / (-10)).
Proof.
  split.
  - apply (proj1 (calculate_depreciation_no_validation 100 100 0 (1 # 2))).
    reflexivity.
  - apply (proj2 (calculate_depreciation_no_validation 100 200 (-10) (1 # 2))).
    vm_compute. discriminate.
Defined.

(** C8: with a positive depreciation period, [calculate_depreciation]
    returns [bonus = buildingValue * bonusPercent],
    [normal = (buildingValue - bonus) / depreciationYears] and
    [total = bonus + normal]; on the example scenario (10,000,000 /
    2,000,000 / 27.5 years / 40%) this is bonus 3,200,000, normal
    4,800,000 / 27.5, shown as 174,545.45, and total shown as 3,374,545.45. *)
Theorem calculate_depreciation_values :
  (forall property_value land_value dep_years bonus_percent : Q,
     0 < dep_years ->
     calculate_depreciation property_value land_value dep_years bonus_percent =
       Ok ((property_value - land_value) * bonus_percent,
           ((property_value - land_value)
              - (property_value - land_value) * bonus_percent) / dep_years,
           (property_value - land_value) * bonus_percent
             + ((property_value - land_value)
                  - (property_value - land_value) * bonus_percent) / dep_years)) /\
  (exists bonus normal total : Q,
     calculate_depreciation 10000000 2000000 (55 # 2) (4 # 10)
       = Ok (bonus, normal, total) /\
     10000000 - 2000000 == 8000000 /\
     bonus == 3200000 /\
     normal == (8000000 - 3200000) / (55 # 2) /\
     format_2f normal = 17454545%Z /\
     total == bonus + normal /\
     format_2f total = 337454545%Z).
Proof.
  split.
  - intros pv lv dy bp Hd.
    rewrite calculate_depreciation_formula; [reflexivity |].
    intros E. rewrite E in Hd. revert Hd. apply Qlt_irrefl.
  - do 3 eexists. split; [vm_compute; reflexivity |].
    repeat split; vm_compute; reflexivity.
Qed.

Lemma calculate_depreciation_values_witness :
  calculate_depreciation 10000000 2000000 (55 # 2) (4 # 10) =
    Ok ((10000000 - 2000000) * (4 # 10),
        ((10000000 - 2000000) - (10000000 - 2000000) * (4 # 10)) / (55 # 2),
        (10000000 - 2000000) * (4 # 10)
          + ((10000000 - 2000000) - (10000000 - 2000000) * (4 # 10)) / (55 # 2)).
Proof.
  apply (proj1 calculate_depreciation_values). reflexivity.
Defined.

(** ** Ranges and frames *)

Lemma py_range_nil (start stop : Z) :
  (stop <= start)%Z -> py_range start stop = [].
Proof.
  intros H. unfold py_range.
  replace (Z.to_nat (stop - start)) with 0%nat by lia. reflexivity.
Qed.

Lemma py_range_cons (start stop : Z) :
  (start < stop)%Z -> py_range start stop = start :: py_range (start + 1) stop.
Proof.
  intros H. unfold py_range.
  replace (Z.to_nat (stop - start)) with (S (Z.to_nat (stop - (start + 1)))) by lia.
  cbn [seq map]. f_equal; [lia |].
  rewrite <- seq_shift, map_map.
  apply map_ext. intros i. lia.
Qed.

Lemma length_py_range (start stop : Z) :
  length (py_range start stop) = Z.to_nat (stop - start).
Proof. unfold py_range. now rewrite length_map, length_seq. Qed.

Lemma In_py_range (start stop k : Z) :
  In k (py_range start stop) <-> (start <= k < stop)%Z.
Proof.
  unfold py_range. rewrite in_map_iff. split.
  - intros (i & <- & Hi). apply in_seq in Hi. lia.
  - intros Hk. exists (Z.to_nat (k - start)). split; [lia |].
    apply in_seq. lia.
Qed.

Lemma NoDup_py_range (start stop : Z) : List.NoDup (py_range start stop).
Proof.
  unfold py_range. apply Finite.Injective_map_NoDup.
  - intros i j Hij. lia.
  - apply List.seq_NoDup.
Qed.

Lemma index_in {A : Type} (df : DataFrame A) (label : Z) :
  In label (index df) <-> exists r, In (label, r) df.
Proof.
  unfold index. rewrite in_map_iff. split.
  - intros ([l r] & <- & Hin). now exists r.
  - intros (r & Hin). now exists (label, r).
Qed.

(** A label carried by exactly one row is read as that row. *)
Lemma loc_unique {A : Type} (df : DataFrame A) (label : Z) (r : A) :
  List.NoDup (index df) -> In (label, r) df -> loc df label = Ok r.
Proof.
  unfold loc. induction df as [| [l x] df IH]; intros Hnd Hin; [easy |].
  cbn [index map fst] in Hnd. apply List.NoDup_cons_iff in Hnd as [Hl Hnd].
  cbn [List.filter fst]. destruct Hin as [E | Hin].
  - injection E as -> ->. rewrite Z.eqb_refl.
    assert (Hnone : List.filter (fun r0 : Z * A => (fst r0 =? label)%Z) df = []).
    { clear IH Hnd. induction df as [| [l' x'] df IH']; [reflexivity |].
      cbn [List.filter fst]. destruct (Z.eqb_spec l' label) as [-> | Hne].
      - exfalso. apply Hl. now left.
      - apply IH'. intros Hin'. apply Hl. now right. }
    now rewrite Hnone.
  - destruct (Z.eqb_spec l label) as [-> | Hne].
    + exfalso. apply Hl. apply index_in. now exists r.
    + now apply IH.
Qed.

(** A label outside the index raises [KeyError]. *)
Lemma loc_absent {A : Type} (df : DataFrame A) (label : Z) :
  ~ In label (index df) -> loc df label = Raise KeyError.
Proof.
  unfold loc. induction df as [| [l x] df IH]; intros Hnin; [reflexivity |].
  cbn [List.filter fst]. destruct (Z.eqb_spec l label) as [-> | Hne].
  - exfalso. apply Hnin. now left.
  - apply IH. intros Hin. apply Hnin. now right.
Qed.

(** ** The depreciation schedule, row by row *)

Section DepreciationRows.

Variables annual_normal_dep bonus_dep dep_years : Q.

Let rows := depreciation_rows annual_normal_dep bonus_dep dep_years.

(** The loop writes one row per year, under that year's label. *)
Lemma index_depreciation_rows (years : list Z) (cumulative : Q) :
  index (rows years cumulative) = years.
Proof.
  subst rows. revert cumulative.
  induction years as [| y ys IH]; intros c; [reflexivity |].
  cbn [depreciation_rows]. destruct (y =? 1)%Z;
    cbn [index map fst]; f_equal; apply IH.
Qed.

(** What the loop body writes in the row of year [y]. *)
Lemma depreciation_rows_In (years : list Z) (cumulative : Q) (y : Z) (r : DepreciationRow) :
  In (y, r) (rows years cumulative) ->
  Bonus_Depreciation r = (if (y =? 1)%Z then bonus_dep else 0) /\
  Normal_Depreciation r =
    (if (y =? 1)%Z then annual_normal_dep
     else if Qle_bool (inject_Z y) dep_years then annual_normal_dep else 0) /\
  Total_Depreciation r = Bonus_Depreciation r + Normal_Depreciation r.
Proof.
  subst rows. revert cumulative.
  induction years as [| y' ys IH]; intros c Hin; [destruct Hin |].
  cbn [depreciation_rows] in Hin.
  destruct (y' =? 1)%Z eqn:E1; destruct Hin as [E | Hin];
    try (now apply IH in Hin);
    injection E as <- <-; rewrite E1; cbn; auto.
Qed.

End DepreciationRows.

(** The frame built by [multi_year_cash_flow] when the division succeeds. *)
Lemma multi_year_cash_flow_frame
    (property_value land_value dep_years bonus_percent : Q) (years : Z) :
  ~ dep_years == 0 ->
  multi_year_cash_flow property_value land_value dep_years bonus_percent years =
    let building_value := property_value - land_value in
    let bonus_dep := building_value * bonus_percent in
    Ok (depreciation_rows ((building_value - bonus_dep) / dep_years) bonus_dep dep_years
          (py_range 1 (years + 1)) 0).
Proof.
  intros Hd. unfold multi_year_cash_flow.
  now rewrite (py_truediv_nonzero _ _ Hd).
Qed.

(** Every year of the horizon has exactly one row, written by the loop body. *)
Lemma multi_year_cash_flow_row
    (property_value land_value dep_years bonus_percent : Q) (years k : Z) :
  ~ dep_years == 0 -> (1 <= k <= years)%Z ->
  exists df row,
    multi_year_cash_flow property_value land_value dep_years bonus_percent years = Ok df /\
    index df = py_range 1 (years + 1) /\
    loc df k = Ok row /\
    Bonus_Depreciation row =
      (if (k =? 1)%Z then (property_value - land_value) * bonus_percent else 0) /\
    Normal_Depreciation row =
      (if (k =? 1)%Z || Qle_bool (inject_Z k) dep_years
       then ((property_value - land_value)
               - (property_value - land_value) * bonus_percent) / dep_years
       else 0) /\
    Total_Depreciation row = Bonus_Depreciation row + Normal_Depreciation row.
Proof.
  intros Hd Hk. rewrite (multi_year_cash_flow_frame _ _ _ _ _ Hd). cbv zeta.
  set (bv := property_value - land_value).
  set (a := (bv - bv * bonus_percent) / dep_years).
  set (df := depreciation_rows a (bv * bonus_percent) dep_years (py_range 1 (years + 1)) 0).
  assert (Hidx : index df = py_range 1 (years + 1))
    by apply index_depreciation_rows.
  assert (Hin : In k (index df)) by (rewrite Hidx; apply In_py_range; lia).
  apply index_in in Hin as [row Hrow].
  exists df, row. split; [reflexivity |]. split; [exact Hidx |].
  split.
  - apply loc_unique; [| exact Hrow]. rewrite Hidx. apply NoDup_py_range.
  - apply depreciation_rows_In in Hrow as (Hb & Hn & Ht).
    rewrite Hb, Hn at 1. repeat split; try assumption.
    destruct (k =? 1)%Z; reflexivity.
Qed.

(** C2, as stated, fails: with a depreciation period of half a year, year 1
    lies beyond the period, yet its row carries the whole annual amount
    (200 on a building of 100) instead of zero. *)
Lemma multi_year_cash_flow_year_one_beyond_period :
  0 < 1 # 2 /\ (1 # 2) < inject_Z 1 /\
  exists df row,
    multi_year_cash_flow 100 0 (1 # 2) 0 1 = Ok df /\
    loc df 1 = Ok row /\
    Normal_Depreciation row == 200 /\
    ~ Normal_Depreciation row == 0.
Proof.
  split; [reflexivity |]. split; [reflexivity |].
  do 2 eexists. split; [vm_compute; reflexivity |].
  split; [vm_compute; reflexivity |].
  split; [reflexivity | discriminate].
Qed.

(** C2 (amended): for a depreciation period of at least one year and a
    positive number of years, the schedule has exactly [years] rows,
    labelled 1..years; bonus depreciation is [buildingValue * bonusPercent]
    in year 1 and zero in every other year; normal depreciation is
    [(buildingValue - bonus) / depreciationYears] in the years whose index
    is at most [depreciationYears] and zero in every later year. *)
Theorem multi_year_cash_flow_schedule
    (property_value land_value dep_years bonus_percent : Q) (years : Z) :
  1 <= dep_years -> (1 <= years)%Z ->
  let building_value := property_value - land_value in
  let bonus := building_value * bonus_percent in
  exists df,
    multi_year_cash_flow property_value land_value dep_years bonus_percent years = Ok df /\
    length df = Z.to_nat years /\
    index df = py_range 1 (years + 1) /\
    forall k : Z, (1 <= k <= years)%Z ->
      exists row,
        loc df k = Ok row /\
        (k = 1%Z -> Bonus_Depreciation row = bonus) /\
        (k <> 1%Z -> Bonus_Depreciation row = 0) /\
        (inject_Z k <= dep_years ->
           Normal_Depreciation row = (building_value - bonus) / dep_years) /\
        (dep_years < inject_Z k -> Normal_Depreciation row = 0).
Proof.
  intros Hdy Hyears. cbv zeta.
  assert (Hd : ~ dep_years == 0) by (intros E; lra).
  destruct (multi_year_cash_flow_row property_value land_value dep_years
              bonus_percent years 1 Hd ltac:(lia)) as (df & _ & Hdf & Hidx & _).
  exists df. split; [exact Hdf |].
  split.
  { rewrite <- (length_map fst df). fold (index df). rewrite Hidx, length_py_range.
    f_equal. lia. }
  split; [exact Hidx |].
  intros k Hk.
  destruct (multi_year_cash_flow_row property_value land_value dep_years
              bonus_percent years k Hd Hk) as (df' & row & Hdf' & _ & Hloc & Hb & Hn & _).
  rewrite Hdf in Hdf'. injection Hdf' as <-.
  exists row. split; [exact Hloc |].
  destruct (Z.eqb_spec k 1) as [-> | Hne]; cbn [orb] in Hn.
  - repeat split; try easy.
    intros Hlate. exfalso. change (inject_Z 1) with 1 in Hlate. lra.
  - repeat split; try easy.
    + intros Hle. apply Qle_bool_iff in Hle. now rewrite Hle in Hn.
    + intros Hlate. apply Qle_bool_false in Hlate. now rewrite Hlate in Hn.
Qed.

Lemma multi_year_cash_flow_schedule_witness :
  exists df,
    multi_year_cash_flow 10000000 2000000 (55 # 2) (4 # 10) 30 = Ok df /\
    length df = Z.to_nat 30 /\
    index df = py_range 1 (30 + 1) /\
    forall k : Z, (1 <= k <= 30)%Z ->
      exists row,
        loc df k = Ok row /\
        (k = 1%Z -> Bonus_Depreciation row = (10000000 - 2000000) * (4 # 10)) /\
        (k <> 1%Z -> Bonus_Depreciation row = 0) /\
        (inject_Z k <= 55 # 2 ->
           Normal_Depreciation row =
             ((10000000 - 2000000) - (10000000 - 2000000) * (4 # 10)) / (55 # 2)) /\
        (55 # 2 < inject_Z k -> Normal_Depreciation row = 0).
Proof.
  apply (multi_year_cash_flow_schedule 10000000 2000000 (55 # 2) (4 # 10) 30).
  - vm_compute. discriminate.
  - lia.
Defined.

(** C5: on identical inputs, [calculate_depreciation] and the year-1 row of
    [multi_year_cash_flow] agree: the triple (bonus, normal, total) is the
    row's (Bonus Depreciation, Normal Depreciation, Total Depreciation); and
    when the former fails (a zero depreciation period) so does the latter,
    with the same exception. *)
Theorem calculate_depreciation_is_year_one
    (property_value land_value dep_years bonus_percent : Q) (years : Z) :
  (1 <= years)%Z ->
  match calculate_depreciation property_value land_value dep_years bonus_percent with
  | Ok (bonus, normal, total) =>
      exists df row,
        multi_year_cash_flow property_value land_value dep_years bonus_percent years = Ok df /\
        loc df 1 = Ok row /\
        Bonus_Depreciation row = bonus /\
        Normal_Depreciation row = normal /\
        Total_Depreciation row = total
  | Raise e =>
      multi_year_cash_flow property_value land_value dep_years bonus_percent years = Raise e
  end.
Proof.
  intros Hyears.
  destruct (Qeq_dec dep_years 0) as [Hz | Hd].
  - unfold calculate_depreciation, multi_year_cash_flow.
    now rewrite !(py_truediv_zero _ _ Hz).
  - rewrite (calculate_depreciation_formula _ _ _ _ Hd). cbv zeta.
    destruct (multi_year_cash_flow_row property_value land_value dep_years
                bonus_percent years 1 Hd ltac:(lia))
      as (df & row & Hdf & _ & Hloc & Hb & Hn & Ht).
    cbn [Z.eqb Pos.eqb orb] in Hb, Hn.
    exists df, row. repeat split; try assumption.
    now rewrite Ht, Hb, Hn.
Qed.

Lemma calculate_depreciation_is_year_one_witness :
  exists df row,
    multi_year_cash_flow 10000000 2000000 (55 # 2) (4 # 10) 10 = Ok df /\
    loc df 1 = Ok row /\
    calculate_depreciation 10000000 2000000 (55 # 2) (4 # 10)
      = Ok (Bonus_Depreciation row, Normal_Depreciation row, Total_Depreciation row).
Proof.
  generalize (calculate_depreciation_is_year_one
                10000000 2000000 (55 # 2) (4 # 10) 10 ltac:(lia)).
  destruct (calculate_depreciation 10000000 2000000 (55 # 2) (4 # 10))
    as [[[bonus normal] total] | e] eqn:E.
  - intros (df & row & Hdf & Hloc & <- & <- & <-). now exists df, row.
  - vm_compute in E. discriminate E.
Defined.

(** ** calculate_sale_tax and simulate_1031_exchange *)

Lemma py_max0_Qmax (a : Q) : py_max0 a == Qmax a 0.
Proof.
  unfold py_max0. destruct (Qgt_bool 0 a) eqn:E.
  - apply Qgt_bool_true in E. rewrite Q.max_r; [reflexivity | lra].
  - apply Qgt_bool_false in E. rewrite Q.max_l; [reflexivity | lra].
Qed.

Lemma py_max0_nonpos (a : Q) : a <= 0 -> py_max0 a == 0.
Proof.
  intros Ha. rewrite py_max0_Qmax. now apply Q.max_r.
Qed.

(** C3, as stated, fails: with a negative cumulative depreciation the total
    gain can be negative while the capital-gains tax is not zero. *)
Lemma calculate_sale_tax_loss_with_capital_gains_tax :
  let r := calculate_sale_tax 100 105 (-10) (25 # 100) (20 # 100) in
  Total_Gain r == -5 /\ Total_Gain r < 0 /\
  Capital_Gains_Tax r == 1 /\ ~ Capital_Gains_Tax r == 0.
Proof.
  cbv zeta. repeat split; try reflexivity. discriminate.
Qed.

(** C3 (amended): [calculate_sale_tax] returns
    [adjustedBasis = costBasis - cumulativeDepreciation],
    [totalGain = salePrice - adjustedBasis],
    [recaptureTax = cumulativeDepreciation * recaptureRate] whatever the gain,
    [capitalGainsTax = max(totalGain - cumulativeDepreciation, 0) * capitalGainsRate]
    and [totalTax = recaptureTax + capitalGainsTax]; a negative total gain
    is accepted and, when the cumulative depreciation is not negative,
    yields a capital-gains tax of zero. *)
Theorem calculate_sale_tax_values
    (cost_basis sale_price cumulative_depreciation recapture_rate capital_gains_rate : Q) :
  let r := calculate_sale_tax cost_basis sale_price cumulative_depreciation
             recapture_rate capital_gains_rate in
  Adjusted_Basis r = cost_basis - cumulative_depreciation /\
  Total_Gain r = sale_price - Adjusted_Basis r /\
  Depreciation_Recapture_Tax r = cumulative_depreciation * recapture_rate /\
  Capital_Gains_Tax r
    == Qmax (Total_Gain r - cumulative_depreciation) 0 * capital_gains_rate /\
  Total_Tax r = Depreciation_Recapture_Tax r + Capital_Gains_Tax r /\
  (0 <= cumulative_depreciation -> Total_Gain r < 0 -> Capital_Gains_Tax r == 0).
Proof.
  cbv zeta. unfold calculate_sale_tax.
  cbn [Adjusted_Basis Total_Gain Depreciation_Recapture_Tax Capital_Gains_Tax Total_Tax].
  repeat split.
  - now rewrite py_max0_Qmax.
  - intros Hcd Hloss. rewrite py_max0_nonpos; [ring | lra].
Qed.

Lemma calculate_sale_tax_values_witness :
  let r := calculate_sale_tax 100 60 30 (25 # 100) (20 # 100) in
  Total_Gain r < 0 /\ Capital_Gains_Tax r == 0.
Proof.
  cbv zeta. split; [vm_compute; reflexivity |].
  apply (calculate_sale_tax_values 100 60 30 (25 # 100) (20 # 100));
    [vm_compute; discriminate | vm_compute; reflexivity].
Defined.

(** C6: [simulate_1031_exchange] returns the total tax of
    [calculate_sale_tax] on the same cost basis, sale price, cumulative
    depreciation and rates, and its result does not depend on the
    reinvested value. *)
Theorem simulate_1031_exchange_is_total_tax
    (sale_price total_depreciation cost_basis reinvested_value
     recapture_rate capital_gains_rate : Q) :
  simulate_1031_exchange sale_price total_depreciation cost_basis reinvested_value
      recapture_rate capital_gains_rate
    = Total_Tax (calculate_sale_tax cost_basis sale_price total_depreciation
                   recapture_rate capital_gains_rate) /\
  forall reinvested_value' : Q,
    simulate_1031_exchange sale_price total_depreciation cost_basis reinvested_value'
        recapture_rate capital_gains_rate
      = simulate_1031_exchange sale_price total_depreciation cost_basis reinvested_value
          recapture_rate capital_gains_rate.
Proof.
  split; [| intros rv']; reflexivity.
Qed.

(** ** get_asset_breakdown *)

Lemma breakdown_keys (property_type : string) :
  is_Some (breakdown !! property_type) <-> In property_type property_types.
Proof.
  split.
  - intros Hsome.
    destruct (decide (property_type ∈ property_types)) as [Hin | Hnin].
    + now apply list_elem_of_In.
    + exfalso. unfold breakdown in Hsome.
      rewrite not_elem_of_list_to_map_1 in Hsome; [now destruct Hsome |].
      exact Hnin.
  - intros Hin. cbn in Hin.
    destruct Hin as [<- | [<- | [<- | [<- | []]]]]; vm_compute; eauto.
Qed.

(** C9: for each of the four property types, [get_asset_breakdown] returns
    a non-empty breakdown whose percentages sum to 1.0 within 0.01; for
    every other property type, [Industrial] among them, it returns the
    empty mapping. *)
Theorem get_asset_breakdown_catalogue :
  (forall property_type : string,
     In property_type property_types ->
     get_asset_breakdown property_type <> [] /\
     Qabs (percent_total (get_asset_breakdown property_type) - 1) <= 1 # 100) /\
  (forall property_type : string,
     ~ In property_type property_types ->
     get_asset_breakdown property_type = []) /\
  get_asset_breakdown "Industrial" = [].
Proof.
  split; [| split].
  - intros t Hin. cbn in Hin.
    destruct Hin as [<- | [<- | [<- | [<- | []]]]];
      (split; [vm_compute; discriminate | vm_compute; discriminate]).
  - intros t Hnin. unfold get_asset_breakdown.
    destruct (breakdown !! t) eqn:E; [| reflexivity].
    exfalso. apply Hnin, breakdown_keys. rewrite E. eauto.
  - vm_compute. reflexivity.
Qed.

Lemma get_asset_breakdown_catalogue_witness :
  (get_asset_breakdown "Hotel" <> [] /\
   Qabs (percent_total (get_asset_breakdown "Hotel") - 1) <= 1 # 100) /\
  get_asset_breakdown "Warehouse" = [].
Proof.
  split.
  - apply (proj1 get_asset_breakdown_catalogue "Hotel"%string).
    cbn. auto.
  - apply (proj1 (proj2 get_asset_breakdown_catalogue) "Warehouse"%string).
    cbn. intros [H | [H | [H | [H | []]]]]; discriminate H.
Defined.

(** ** compute_operating_cash_flow *)

Section OperatingCashFlow.

Variable df_dep : DataFrame DepreciationRow.
Variables rental_income operating_expenses tax_bracket : Q.
Hypothesis labels_distinct : List.NoDup (index df_dep).

(** The loop over any part [sub] of the frame, entered with [cumulative]. *)
Lemma cash_flow_rows_spec (sub : DataFrame DepreciationRow) (cumulative : Q) :
  (forall e, In e sub -> In e df_dep) ->
  exists rows,
    cash_flow_rows df_dep rental_income operating_expenses tax_bracket
      (index sub) cumulative = Ok rows /\
    length rows = length sub /\
    map Year rows = index sub /\
    forall (i : nat) (year : Z) (dep : DepreciationRow),
      nth_error sub i = Some (year, dep) ->
      exists cf,
        nth_error rows i = Some cf /\
        Year cf = year /\
        NOI cf = rental_income - operating_expenses /\
        Depreciation cf = Total_Depreciation dep /\
        Taxable_Operating_Income cf = NOI cf - Total_Depreciation dep /\
        (0 < Taxable_Operating_Income cf ->
           Tax_Liability cf = Taxable_Operating_Income cf * (tax_bracket / 100)) /\
        (Taxable_Operating_Income cf <= 0 -> Tax_Liability cf = 0) /\
        Operating_Cash_Flow cf = NOI cf - Tax_Liability cf /\
        Cumulative_Operating_Cash_Flow cf =
          fold_left Qplus (map Operating_Cash_Flow (firstn (S i) rows)) cumulative.
Proof.
  revert cumulative.
  induction sub as [| [y d] sub' IH]; intros c Hsub.
  - exists []. repeat split; try reflexivity.
    intros [| i] year dep H; discriminate H.
  - cbn [index map fst cash_flow_rows].
    rewrite (loc_unique df_dep y d labels_distinct) by (apply Hsub; now left).
    cbn [bind].
    set (noi := rental_income - operating_expenses).
    set (taxable := noi - Total_Depreciation d).
    set (tax := if Qgt_bool taxable 0 then taxable * (tax_bracket / 100) else 0).
    destruct (IH (c + (noi - tax))) as (rows & Hrows & Hlen & Hyears & Hnth).
    { intros e He. apply Hsub. now right. }
    fold (index sub'). rewrite Hrows. cbn [bind].
    eexists. split; [reflexivity |].
    split; [cbn [length]; now rewrite Hlen |].
    split; [cbn [map Year]; now rewrite Hyears |].
    intros [| i] year dep Hi.
    + injection Hi as <- <-. eexists. split; [reflexivity |].
      cbn [Year NOI Depreciation Taxable_Operating_Income Tax_Liability
           Operating_Cash_Flow Cumulative_Operating_Cash_Flow].
      repeat split.
      * intros Hpos. subst tax. apply Qgt_bool_true in Hpos. now rewrite Hpos.
      * intros Hneg. subst tax. apply Qgt_bool_false in Hneg. now rewrite Hneg.
    + cbn [nth_error] in Hi. destruct (Hnth i year dep Hi) as (cf & Hcf & Hrest).
      exists cf. split; [exact Hcf |].
      destruct Hrest as (? & ? & ? & ? & ? & ? & ? & Hcum).
      repeat split; try assumption.
Qed.

End OperatingCashFlow.

(** C7: on a depreciation schedule (a frame whose year labels are distinct),
    [compute_operating_cash_flow] produces one record per schedule row, in
    the same order and with the same year labels; in each,
    [noi = rentalIncome - operatingExpenses],
    [taxableOperatingIncome = noi - that year's total depreciation],
    [taxLiability = taxableOperatingIncome * (taxBracketPercent / 100)] when
    the taxable income is positive and 0 otherwise,
    [operatingCashFlow = noi - taxLiability], and the cumulative cash flow is
    the running sum of the operating cash flows up to that year. *)
Theorem compute_operating_cash_flow_records
    (df_dep : DataFrame DepreciationRow)
    (rental_income operating_expenses tax_bracket : Q) :
  List.NoDup (index df_dep) ->
  exists rows,
    compute_operating_cash_flow df_dep rental_income operating_expenses tax_bracket
      = Ok rows /\
    length rows = length df_dep /\
    map Year rows = index df_dep /\
    forall (i : nat) (year : Z) (dep : DepreciationRow),
      nth_error df_dep i = Some (year, dep) ->
      exists cf,
        nth_error rows i = Some cf /\
        Year cf = year /\
        NOI cf = rental_income - operating_expenses /\
        Depreciation cf = Total_Depreciation dep /\
        Taxable_Operating_Income cf = NOI cf - Total_Depreciation dep /\
        (0 < Taxable_Operating_Income cf ->
           Tax_Liability cf = Taxable_Operating_Income cf * (tax_bracket / 100)) /\
        (Taxable_Operating_Income cf <= 0 -> Tax_Liability cf = 0) /\
        Operating_Cash_Flow cf = NOI cf - Tax_Liability cf /\
        Cumulative_Operating_Cash_Flow cf =
          fold_left Qplus (map Operating_Cash_Flow (firstn (S i) rows)) 0.
Proof.
  intros Hnd. unfold compute_operating_cash_flow.
  apply cash_flow_rows_spec; auto.
Qed.

Lemma compute_operating_cash_flow_records_witness :
  let df_dep :=
    [(1%Z, {| Bonus_Depreciation := 3200000; Normal_Depreciation := 1920000 # 11;
              Total_Depreciation := 37120000 # 11;
              Cumulative_Depreciation := 37120000 # 11 |});
     (2%Z, {| Bonus_Depreciation := 0; Normal_Depreciation := 1920000 # 11;
              Total_Depreciation := 1920000 # 11;
              Cumulative_Depreciation := 39040000 # 11 |})] in
  exists rows,
    compute_operating_cash_flow df_dep 500000 150000 37 = Ok rows /\
    length rows = length df_dep /\
    map Year rows = index df_dep /\
    forall (i : nat) (year : Z) (dep : DepreciationRow),
      nth_error df_dep i = Some (year, dep) ->
      exists cf,
        nth_error rows i = Some cf /\
        Year cf = year /\
        NOI cf = 500000 - 150000 /\
        Depreciation cf = Total_Depreciation dep /\
        Taxable_Operating_Income cf = NOI cf - Total_Depreciation dep /\
        (0 < Taxable_Operating_Income cf ->
           Tax_Liability cf = Taxable_Operating_Income cf * (37 / 100)) /\
        (Taxable_Operating_Income cf <= 0 -> Tax_Liability cf = 0) /\
        Operating_Cash_Flow cf = NOI cf - Tax_Liability cf /\
        Cumulative_Operating_Cash_Flow cf =
          fold_left Qplus (map Operating_Cash_Flow (firstn (S i) rows)) 0.
Proof.
  cbv zeta. apply compute_operating_cash_flow_records.
  cbn [index map fst].
  constructor; [| constructor; [| constructor]].
  - intros [H | []]. discriminate H.
  - intros [].
Defined.

(** Every schedule built by [multi_year_cash_flow] has distinct year labels,
    so its cash-flow projection succeeds, with one record per year. *)
Lemma compute_operating_cash_flow_on_schedule
    (property_value land_value dep_years bonus_percent : Q) (years : Z)
    (rental_income operating_expenses tax_bracket : Q) :
  ~ dep_years == 0 ->
  exists df rows,
    multi_year_cash_flow property_value land_value dep_years bonus_percent years = Ok df /\
    compute_operating_cash_flow df rental_income operating_expenses tax_bracket = Ok rows /\
    map Year rows = py_range 1 (years + 1).
Proof.
  intros Hd. rewrite (multi_year_cash_flow_frame _ _ _ _ _ Hd). cbv zeta.
  set (df := depreciation_rows _ _ _ _ _).
  assert (Hidx : index df = py_range 1 (years + 1)) by apply index_depreciation_rows.
  assert (Hnd : List.NoDup (index df)) by (rewrite Hidx; apply NoDup_py_range).
  destruct (cash_flow_rows_spec df rental_income operating_expenses tax_bracket
              Hnd df 0 ltac:(auto)) as (rows & Hrows & _ & Hyears & _).
  exists df, rows. split; [reflexivity |]. split; [exact Hrows |].
  now rewrite Hyears.
Qed.

(** Without distinct labels the projection fails: a label carried by two
    rows selects both, and the comparison with 0 is no longer a scalar. *)
Example compute_operating_cash_flow_duplicate_label :
  let row := {| Bonus_Depreciation := 0; Normal_Depreciation := 10;
                Total_Depreciation := 10; Cumulative_Depreciation := 10 |} in
  compute_operating_cash_flow [(1%Z, row); (1%Z, row)] 500000 150000 37
    = Raise ValueError.
Proof. reflexivity. Qed.

(** The example of the specification: rental income 500,000, operating
    expenses 150,000 and the year-1 depreciation of the example scenario
    give a net operating income of 350,000, a negative taxable income, no
    tax and an operating cash flow of 350,000. *)
Example compute_operating_cash_flow_example :
  exists df cf,
    multi_year_cash_flow 10000000 2000000 (55 # 2) (4 # 10) 1 = Ok df /\
    compute_operating_cash_flow df 500000 150000 37 = Ok [cf] /\
    format_2f (Depreciation cf) = 337454545%Z /\
    NOI cf == 350000 /\
    Taxable_Operating_Income cf < 0 /\
    Tax_Liability cf == 0 /\
    Operating_Cash_Flow cf == 350000.
Proof.
  do 2 eexists. split; [vm_compute; reflexivity |].
  split; [vm_compute; reflexivity |].
  repeat split; vm_compute; reflexivity.
Qed.

(** ** Monotonicity of the schedule *)



Section ScheduleMonotone.

Variables annual_normal_dep bonus_dep dep_years : Q.
Hypothesis annual_nonneg : 0 <= annual_normal_dep.
Hypothesis bonus_nonneg : 0 <= bonus_dep.

Let rows := depreciation_rows annual_normal_dep bonus_dep dep_years.

(** Every year adds a non-negative amount to the running total. *)
Lemma cumulative_non_decreasing (years : list Z) (cumulative : Q) :
  non_decreasing (column Cumulative_Depreciation (rows years cumulative)) /\
  Forall (Qle cumulative) (column Cumulative_Depreciation (rows years cumulative)).
Proof.
  subst rows. revert cumulative.
  induction years as [| y ys IH]; intros c.
  - split; constructor.
  - cbn [depreciation_rows].
    set (nb := if (y =? 1)%Z then (annual_normal_dep, bonus_dep)
               else (if Qle_bool (inject_Z y) dep_years
                     then annual_normal_dep else 0, 0)).
    assert (Hnb : 0 <= snd nb + fst nb).
    { subst nb. destruct (y =? 1)%Z; cbn [fst snd]; [lra |].
      destruct (Qle_bool (inject_Z y) dep_years); lra. }
    destruct nb as [norm bonus]. cbn [fst snd] in Hnb.
    cbn [column map snd Cumulative_Depreciation].
    destruct (IH (c + (bonus + norm))) as [Hsorted Hall].
    split.
    + constructor; [exact Hsorted | exact Hall].
    + constructor; [lra |].
      eapply List.Forall_impl; [| exact Hall]. cbn beta. intros x Hx. lra.
Qed.

End ScheduleMonotone.

Section ScheduleTail.

Variables annual_normal_dep bonus_dep dep_years : Q.
Variable stop : Z.
Hypothesis annual_nonneg : 0 <= annual_normal_dep.

Let rows := depreciation_rows annual_normal_dep bonus_dep dep_years.

(** One turn of the loop in a year after the first. *)
Lemma depreciation_rows_later_year (y : Z) (cumulative : Q) :
  (2 <= y < stop)%Z ->
  rows (py_range y stop) cumulative =
    let norm := if Qle_bool (inject_Z y) dep_years then annual_normal_dep else 0 in
    (y, {| Bonus_Depreciation := 0;
           Normal_Depreciation := norm;
           Total_Depreciation := 0 + norm;
           Cumulative_Depreciation := cumulative + (0 + norm) |})
      :: rows (py_range (y + 1) stop) (cumulative + (0 + norm)).
Proof.
  intros Hy. subst rows. rewrite py_range_cons by lia.
  cbn [depreciation_rows].
  destruct (Z.eqb_spec y 1) as [E | _]; [lia | reflexivity].
Qed.

(** From year 2 on, the yearly totals never increase: they are the annual
    amount while the period lasts and zero afterwards. *)
Lemma total_non_increasing_from (n : nat) :
  forall (y : Z) (cumulative : Q),
    (2 <= y)%Z -> Z.to_nat (stop - y) = n ->
    let totals := column Total_Depreciation (rows (py_range y stop) cumulative) in
    non_increasing totals /\
    Forall (fun t => t <= annual_normal_dep) totals /\
    (dep_years < inject_Z y -> Forall (fun t => t <= 0) totals).
Proof.
  induction n as [| n IH]; intros y c Hy Hn; cbv zeta.
  - rewrite py_range_nil by lia. repeat split; constructor.
  - rewrite depreciation_rows_later_year by lia. cbv zeta.
    cbn [column map snd Total_Depreciation].
    destruct (IH (y + 1)%Z
                (c + (0 + (if Qle_bool (inject_Z y) dep_years
                           then annual_normal_dep else 0)))
                ltac:(lia) ltac:(lia)) as (Hsorted & Hle & Hzero).
    assert (Hnext : inject_Z (y + 1) == inject_Z y + 1)
      by (rewrite inject_Z_plus; reflexivity).
    destruct (Qle_bool (inject_Z y) dep_years) eqn:E.
    + apply Qle_bool_iff in E. repeat split.
      * constructor; [exact Hsorted |].
        eapply List.Forall_impl; [| exact Hle]. cbn beta. intros t Ht. lra.
      * constructor; [lra | exact Hle].
      * intros Hlate. lra.
    + apply Qle_bool_false in E.
      assert (Hz : Forall (fun t => t <= 0)
                     (column Total_Depreciation
                        (rows (py_range (y + 1) stop) (c + (0 + 0)))))
        by (apply Hzero; lra).
      repeat split.
      * constructor; [exact Hsorted |].
        eapply List.Forall_impl; [| exact Hz]. cbn beta. intros t Ht. lra.
      * constructor; [lra | exact Hle].
      * intros _. constructor; [lra | exact Hz].
Qed.

End ScheduleTail.

(** The amounts of a valid scenario are not negative. *)
Lemma schedule_amounts_nonneg (building_value dep_years bonus_percent : Q) :
  0 <= building_value -> 0 < dep_years -> 0 <= bonus_percent <= 1 ->
  0 <= building_value * bonus_percent /\
  0 <= (building_value - building_value * bonus_percent) / dep_years.
Proof.
  intros Hbv Hdy [Hb0 Hb1]. split.
  - apply Qmult_le_0_compat; assumption.
  - apply Qdiv_nonneg; [| exact Hdy].
    assert (H : 0 <= building_value * (1 - bonus_percent))
      by (apply Qmult_le_0_compat; lra).
    lra.
Qed.

(** The first turn of the loop. *)
Lemma depreciation_rows_first_year
    (annual_normal_dep bonus_dep dep_years : Q) (years : Z) :
  (1 <= years)%Z ->
  depreciation_rows annual_normal_dep bonus_dep dep_years (py_range 1 (years + 1)) 0 =
    (1%Z, {| Bonus_Depreciation := bonus_dep;
             Normal_Depreciation := annual_normal_dep;
             Total_Depreciation := bonus_dep + annual_normal_dep;
             Cumulative_Depreciation := 0 + (bonus_dep + annual_normal_dep) |})
      :: depreciation_rows annual_normal_dep bonus_dep dep_years
           (py_range 2 (years + 1)) (0 + (bonus_dep + annual_normal_dep)).
Proof.
  intros Hyears. rewrite py_range_cons by lia. reflexivity.
Qed.


(** C10: for a non-negative building value, a bonus percentage in [0,1],
    a positive depreciation period and at least one year, the yearly total
    depreciation never increases from one year to a later one: year 1
    carries the bonus plus the annual amount, and from year 2 on a year
    beyond the depreciation period carries nothing. *)
Theorem total_depreciation_non_increasing
    (property_value land_value dep_years bonus_percent : Q) (years : Z) :
  0 <= property_value - land_value -> 0 <= bonus_percent <= 1 ->
  0 < dep_years -> (1 <= years)%Z ->
  let building_value := property_value - land_value in
  let bonus := building_value * bonus_percent in
  exists df,
    multi_year_cash_flow property_value land_value dep_years bonus_percent years = Ok df /\
    non_increasing (column Total_Depreciation df) /\
    (exists row,
       loc df 1 = Ok row /\
       Total_Depreciation row = bonus + (building_value - bonus) / dep_years) /\
    (forall k : Z, (2 <= k <= years)%Z -> dep_years < inject_Z k ->
       exists row, loc df k = Ok row /\ Total_Depreciation row == 0).
Proof.
  intros Hbv Hbp Hdy Hyears. cbv zeta.
  assert (Hd : ~ dep_years == 0) by (intros E; lra).
  set (bv := property_value - land_value) in *.
  set (b := bv * bonus_percent).
  set (a := (bv - b) / dep_years).
  destruct (schedule_amounts_nonneg bv dep_years bonus_percent Hbv Hdy Hbp)
    as [Hb Ha].
  fold b in Hb. fold b a in Ha.
  destruct (multi_year_cash_flow_row property_value land_value dep_years
              bonus_percent years 1 Hd ltac:(lia))
    as (df & row1 & Hdf & _ & Hloc1 & Hb1 & Hn1 & Ht1).
  cbn [Z.eqb Pos.eqb orb] in Hb1, Hn1. fold bv b in Hb1. fold bv b a in Hn1.
  exists df. split; [exact Hdf |]. split; [| split].
  - rewrite (multi_year_cash_flow_frame _ _ _ _ _ Hd) in Hdf. cbv zeta in Hdf.
    injection Hdf as <-. fold bv b a.
    rewrite depreciation_rows_first_year by exact Hyears.
    cbn [column map snd Total_Depreciation].
    destruct (total_non_increasing_from a b dep_years (years + 1) Ha
                (Z.to_nat (years + 1 - 2)) 2%Z (0 + (b + a))
                ltac:(lia) eq_refl) as (Hsorted & Hle & _).
    constructor; [exact Hsorted |].
    eapply List.Forall_impl; [| exact Hle]. cbn beta. intros t Ht. lra.
  - exists row1. split; [exact Hloc1 |]. now rewrite Ht1, Hb1, Hn1.
  - intros k Hk Hlate.
    destruct (multi_year_cash_flow_row property_value land_value dep_years
                bonus_percent years k Hd ltac:(lia))
      as (df' & row & Hdf' & _ & Hloc & Hbk & Hnk & Htk).
    rewrite Hdf in Hdf'. injection Hdf' as <-.
    exists row. split; [exact Hloc |].
    destruct (Z.eqb_spec k 1) as [E | _]; [lia |].
    apply Qle_bool_false in Hlate. rewrite Hlate in Hnk. cbn [orb] in Hnk.
    rewrite Htk, Hbk, Hnk. reflexivity.
Qed.

Lemma total_depreciation_non_increasing_witness :
  exists df,
    multi_year_cash_flow 10000000 2000000 (55 # 2) (4 # 10) 30 = Ok df /\
    non_increasing (column Total_Depreciation df) /\
    (exists row,
       loc df 1 = Ok row /\
       Total_Depreciation row =
         (10000000 - 2000000) * (4 # 10)
         + ((10000000 - 2000000) - (10000000 - 2000000) * (4 # 10)) / (55 # 2)) /\
    (forall k : Z, (2 <= k <= 30)%Z -> 55 # 2 < inject_Z k ->
       exists row, loc df k = Ok row /\ Total_Depreciation row == 0).
Proof.
  apply (total_depreciation_non_increasing 10000000 2000000 (55 # 2) (4 # 10) 30).
  - vm_compute. discriminate.
  - split; vm_compute; discriminate.
  - reflexivity.
  - lia.
Defined.


(** * Further properties of the helpers and of their callers *)

(** ** The schedule: failure, shape and running total *)

(** [multi_year_cash_flow] fails exactly on a zero depreciation period,
    with [ZeroDivisionError] and whatever the horizon, an empty one
    included; on any other input it returns one row per year 1..years, and
    no row at all when [years] is zero or negative. *)
Theorem multi_year_cash_flow_outcome
    (property_value land_value dep_years bonus_percent : Q) (years : Z) :
  (dep_years == 0 ->
     multi_year_cash_flow property_value land_value dep_years bonus_percent years
       = Raise ZeroDivisionError) /\
  (~ dep_years == 0 ->
     exists df,
       multi_year_cash_flow property_value land_value dep_years bonus_percent years = Ok df /\
       index df = py_range 1 (years + 1) /\
       length df = Z.to_nat years /\
       ((years <= 0)%Z -> df = [])).
Proof.
  split; intros Hd.
  - unfold multi_year_cash_flow. now rewrite (py_truediv_zero _ _ Hd).
  - rewrite (multi_year_cash_flow_frame _ _ _ _ _ Hd). cbv zeta.
    set (df := depreciation_rows _ _ _ _ _).
    assert (Hidx : index df = py_range 1 (years + 1)) by apply index_depreciation_rows.
    exists df. split; [reflexivity |]. split; [exact Hidx |]. split.
    + rewrite <- (length_map fst df). fold (index df).
      rewrite Hidx, length_py_range. f_equal. lia.
    + intros Hy. subst df. now rewrite py_range_nil by lia.
Qed.

Lemma multi_year_cash_flow_outcome_witness :
  multi_year_cash_flow 100 0 0 (1 # 2) 0 = Raise ZeroDivisionError /\
  exists df,
    multi_year_cash_flow 100 0 10 (1 # 2) (-3) = Ok df /\
    index df = py_range 1 (-3 + 1) /\
    length df = Z.to_nat (-3) /\
    ((-3 <= 0)%Z -> df = []).
Proof.
  split.
  - apply (proj1 (multi_year_cash_flow_outcome 100 0 0 (1 # 2) 0)). reflexivity.
  - apply (proj2 (multi_year_cash_flow_outcome 100 0 10 (1 # 2) (-3))).
    vm_compute. discriminate.
Defined.

Section RunningTotal.

Variables annual_normal_dep bonus_dep dep_years : Q.

Let rows := depreciation_rows annual_normal_dep bonus_dep dep_years.

(** Each cumulative value is the value on entry plus the totals so far. *)
Lemma depreciation_rows_running_total (years : list Z) (cumulative : Q) (i : nat) (c : Q) :
  nth_error (column Cumulative_Depreciation (rows years cumulative)) i = Some c ->
  c = fold_left Qplus
        (firstn (S i) (column Total_Depreciation (rows years cumulative))) cumulative.
Proof.
  subst rows. revert cumulative i.
  induction years as [| y ys IH]; intros c0 i Hi.
  - destruct i; discriminate Hi.
  - cbn [depreciation_rows] in *.
    destruct (if (y =? 1)%Z then (annual_normal_dep, bonus_dep)
              else (if Qle_bool (inject_Z y) dep_years
                    then annual_normal_dep else 0, 0)) as [norm bonus].
    cbn [column map snd Cumulative_Depreciation Total_Depreciation] in *.
    destruct i as [| i].
    + injection Hi as <-. reflexivity.
    + cbn [nth_error] in Hi. apply IH in Hi. exact Hi.
Qed.

(** The rows of a longer list of years extend the rows of a shorter one. *)
Lemma depreciation_rows_app (years more : list Z) (cumulative : Q) :
  exists cumulative',
    rows (years ++ more) cumulative = rows years cumulative ++ rows more cumulative'.
Proof.
  subst rows. revert cumulative.
  induction years as [| y ys IH]; intros c.
  - exists c. reflexivity.
  - cbn [app depreciation_rows].
    destruct (if (y =? 1)%Z then (annual_normal_dep, bonus_dep)
              else (if Qle_bool (inject_Z y) dep_years
                    then annual_normal_dep else 0, 0)) as [norm bonus].
    destruct (IH (c + (bonus + norm))) as [c' Hc'].
    exists c'. rewrite Hc'. reflexivity.
Qed.

End RunningTotal.

Lemma py_range_split (start mid stop : Z) :
  (start <= mid <= stop)%Z ->
  py_range start stop = py_range start mid ++ py_range mid stop.
Proof.
  intros H. remember (Z.to_nat (mid - start)) as n eqn:Hn.
  revert start Hn H. induction n as [| n IH]; intros start Hn H.
  - replace mid with start by lia. now rewrite (py_range_nil start start) by lia.
  - rewrite (py_range_cons start stop), (py_range_cons start mid) by lia.
    cbn [app]. f_equal. apply IH; lia.
Qed.

(** A frame returned by [multi_year_cash_flow] is the output of its loop. *)
Lemma multi_year_cash_flow_Ok
    (property_value land_value dep_years bonus_percent : Q) (years : Z)
    (df : DataFrame DepreciationRow) :
  multi_year_cash_flow property_value land_value dep_years bonus_percent years = Ok df ->
  ~ dep_years == 0 /\
  df = depreciation_rows
         (((property_value - land_value) - (property_value - land_value) * bonus_percent)
            / dep_years)
         ((property_value - land_value) * bonus_percent) dep_years
         (py_range 1 (years + 1)) 0.
Proof.
  intros Hdf. destruct (Qeq_dec dep_years 0) as [Hz | Hd].
  - unfold multi_year_cash_flow in Hdf.
    rewrite (py_truediv_zero _ _ Hz) in Hdf. discriminate Hdf.
  - split; [exact Hd |].
    rewrite (multi_year_cash_flow_frame _ _ _ _ _ Hd) in Hdf. cbv zeta in Hdf.
    now injection Hdf as <-.
Qed.

(** In every schedule the cumulative depreciation of a year is the sum,
    taken in year order from 0, of the total depreciation of the years up
    to it. *)
Theorem cumulative_depreciation_is_running_total
    (property_value land_value dep_years bonus_percent : Q) (years : Z)
    (df : DataFrame DepreciationRow) (i : nat) (c : Q) :
  multi_year_cash_flow property_value land_value dep_years bonus_percent years = Ok df ->
  nth_error (column Cumulative_Depreciation df) i = Some c ->
  c = fold_left Qplus (firstn (S i) (column Total_Depreciation df)) 0.
Proof.
  intros Hdf Hi. apply multi_year_cash_flow_Ok in Hdf as [_ ->].
  now apply depreciation_rows_running_total.
Qed.

Lemma cumulative_depreciation_is_running_total_witness :
  exists df c,
    multi_year_cash_flow 100 0 (5 # 2) (1 # 2) 4 = Ok df /\
    nth_error (column Cumulative_Depreciation df) 2 = Some c /\
    c = fold_left Qplus (firstn 3 (column Total_Depreciation df)) 0.
Proof.
  do 2 eexists. split; [vm_compute; reflexivity |]. split; [reflexivity |].
  apply (cumulative_depreciation_is_running_total 100 0 (5 # 2) (1 # 2) 4);
    reflexivity.
Defined.

(** Lengthening the horizon only appends rows: the schedule over [years]
    years is the beginning of the schedule over any longer horizon. *)
Theorem multi_year_cash_flow_prefix
    (property_value land_value dep_years bonus_percent : Q) (years longer : Z)
    (df : DataFrame DepreciationRow) :
  (years <= longer)%Z ->
  multi_year_cash_flow property_value land_value dep_years bonus_percent longer = Ok df ->
  multi_year_cash_flow property_value land_value dep_years bonus_percent years
    = Ok (firstn (Z.to_nat years) df).
Proof.
  intros Hle Hdf. apply multi_year_cash_flow_Ok in Hdf as [Hd ->].
  rewrite (multi_year_cash_flow_frame _ _ _ _ _ Hd). cbv zeta. f_equal.
  destruct (Z.le_gt_cases years 0) as [Hneg | Hpos].
  - replace (Z.to_nat years) with 0%nat by lia.
    now rewrite py_range_nil by lia.
  - rewrite (py_range_split 1 (years + 1) (longer + 1)) by lia.
    match goal with
    | |- _ = firstn _ (depreciation_rows ?a ?b ?d (?l ++ ?m) ?c) =>
        destruct (depreciation_rows_app a b d l m c) as [c' ->]
    end.
    set (short := depreciation_rows _ _ _ (py_range 1 (years + 1)) 0).
    assert (Hlen : Z.to_nat years = length short).
    { rewrite <- (length_map fst short). fold (index short). subst short.
      rewrite index_depreciation_rows, length_py_range. lia. }
    rewrite Hlen, firstn_app, Nat.sub_diag, firstn_all. cbn [firstn].
    now rewrite app_nil_r.
Qed.

Lemma multi_year_cash_flow_prefix_witness :
  exists df,
    multi_year_cash_flow 100 0 (5 # 2) (1 # 2) 4 = Ok df /\
    multi_year_cash_flow 100 0 (5 # 2) (1 # 2) 2 = Ok (firstn (Z.to_nat 2) df).
Proof.
  eexists. split; [vm_compute; reflexivity |].
  apply (multi_year_cash_flow_prefix 100 0 (5 # 2) (1 # 2) 2 4);
    [lia | vm_compute; reflexivity].
Defined.

(** ** First-year depreciation and the goal of tab 1 *)

Lemma Qdiv_le_self (x d : Q) : 0 <= x -> 1 <= d -> 0 <= x / d <= x.
Proof.
  intros Hx Hd.
  assert (Hq : 0 <= x / d) by (apply Qdiv_nonneg; lra).
  assert (Hback : x / d * d == x) by (field; lra).
  assert (Hextra : 0 <= x / d * (d - 1)) by (apply Qmult_le_0_compat; lra).
  split; lra.
Qed.

(** The figures of the first year for a period of at least one year. *)
Lemma first_year_bounds (building_value dep_years bonus_percent : Q) :
  0 <= building_value -> 1 <= dep_years -> 0 <= bonus_percent <= 1 ->
  let bonus := building_value * bonus_percent in
  let normal := (building_value - bonus) / dep_years in
  0 <= bonus <= building_value /\
  0 <= normal <= building_value - bonus /\
  building_value / dep_years <= bonus + normal <= building_value.
Proof.
  intros Hbv Hdy [Hb0 Hb1]. cbv zeta.
  set (b := building_value * bonus_percent).
  assert (Hb : 0 <= b) by (apply Qmult_le_0_compat; assumption).
  assert (Hrem : 0 <= building_value * (1 - bonus_percent))
    by (apply Qmult_le_0_compat; lra).
  assert (Hbb : b <= building_value) by (subst b; lra).
  destruct (Qdiv_le_self (building_value - b) dep_years ltac:(lra) Hdy) as [Hn0 Hn1].
  destruct (Qdiv_le_self b dep_years Hb Hdy) as [Hq0 Hq1].
  assert (Hsplit : building_value / dep_years
                   == b / dep_years + (building_value - b) / dep_years)
    by (field; lra).
  repeat split; try assumption; lra.
Qed.

(** Tab 1.  A building worth less than 4,000,000 never reaches the goal
    (for a period of at least one year and a bonus percentage in [0,1]);
    a bonus that alone amounts to 4,000,000 always does (for a positive
    period and a bonus percentage in [0,1]). *)
Theorem depreciation_overview_goal
    (property_value land_value dep_years bonus_percent : Q) :
  (0 <= property_value - land_value < 4000000 -> 1 <= dep_years ->
   0 <= bonus_percent <= 1 ->
   exists bonus normal total,
     depreciation_overview property_value land_value dep_years bonus_percent
       = Ok (bonus, normal, total, false)) /\
  (4000000 <= (property_value - land_value) * bonus_percent -> 0 < dep_years ->
   0 <= bonus_percent <= 1 ->
   exists bonus normal total,
     depreciation_overview property_value land_value dep_years bonus_percent
       = Ok (bonus, normal, total, true)).
Proof.
  split.
  - intros [Hbv Hsmall] Hdy Hbp. unfold depreciation_overview.
    rewrite calculate_depreciation_formula by (intros E; lra). cbv zeta. cbn [bind].
    destruct (first_year_bounds _ _ _ Hbv Hdy Hbp) as (_ & _ & _ & Htop).
    do 3 eexists. do 2 f_equal.
    apply Qle_bool_false. lra.
  - intros Hbonus Hdy Hbp. unfold depreciation_overview.
    rewrite calculate_depreciation_formula by (intros E; lra). cbv zeta. cbn [bind].
    do 3 eexists. do 2 f_equal.
    apply Qle_bool_iff.
    set (bv := property_value - land_value) in *.
    assert (Hbvpos : 0 <= bv).
    { destruct (Qlt_le_dec bv 0) as [Hneg | Hok]; [| exact Hok].
      assert (0 <= (0 - bv) * bonus_percent) by (apply Qmult_le_0_compat; lra).
      lra. }
    assert (Hrem : 0 <= bv * (1 - bonus_percent)) by (apply Qmult_le_0_compat; lra).
    assert (Hn : 0 <= (bv - bv * bonus_percent) / dep_years)
      by (apply Qdiv_nonneg; lra).
    lra.
Qed.

Lemma depreciation_overview_goal_witness :
  (exists bonus normal total,
     depreciation_overview 5000000 2000000 (55 # 2) 1 = Ok (bonus, normal, total, false)) /\
  (exists bonus normal total,
     depreciation_overview 10000000 2000000 (55 # 2) (5 # 10)
       = Ok (bonus, normal, total, true)).
Proof.
  split.
  - apply (proj1 (depreciation_overview_goal 5000000 2000000 (55 # 2) 1)).
    + split; [vm_compute; discriminate | vm_compute; reflexivity].
    + vm_compute. discriminate.
    + split; vm_compute; discriminate.
  - apply (proj2 (depreciation_overview_goal 10000000 2000000 (55 # 2) (5 # 10))).
    + vm_compute. discriminate.
    + reflexivity.
    + split; vm_compute; discriminate.
Defined.

(** ** Sale tax: monotonicity *)

Lemma py_max0_nonneg (a : Q) : 0 <= py_max0 a.
Proof.
  unfold py_max0. destruct (Qgt_bool 0 a) eqn:E; [lra |].
  now apply Qgt_bool_false in E.
Qed.

Lemma py_max0_monotone (a b : Q) : a <= b -> py_max0 a <= py_max0 b.
Proof.
  intros Hab. rewrite !py_max0_Qmax.
  apply Q.max_le_compat_r. exact Hab.
Qed.

#[export] Instance py_max0_compat : Proper (Qeq ==> Qeq) py_max0.
Proof.
  intros a b Hab. rewrite !py_max0_Qmax. now rewrite Hab.
Qed.

(** The gain left after recapture is the sale price less the cost basis. *)
Lemma calculate_sale_tax_remaining_gain
    (cost_basis sale_price cumulative_depreciation : Q) :
  sale_price - (cost_basis - cumulative_depreciation) - cumulative_depreciation
    == sale_price - cost_basis.
Proof. ring. Qed.

(** With non-negative rates the total tax never decreases when the sale
    price increases, the cost basis and the cumulative depreciation being
    the same, and it is not negative when the cumulative depreciation is
    not. *)
Theorem calculate_sale_tax_monotone
    (cost_basis sale_price sale_price' cumulative_depreciation
     recapture_rate capital_gains_rate : Q) :
  0 <= recapture_rate -> 0 <= capital_gains_rate -> sale_price <= sale_price' ->
  Total_Tax (calculate_sale_tax cost_basis sale_price cumulative_depreciation
               recapture_rate capital_gains_rate)
    <= Total_Tax (calculate_sale_tax cost_basis sale_price' cumulative_depreciation
                    recapture_rate capital_gains_rate) /\
  (0 <= cumulative_depreciation ->
   0 <= Total_Tax (calculate_sale_tax cost_basis sale_price cumulative_depreciation
                     recapture_rate capital_gains_rate)).
Proof.
  intros Hrr Hcg Hsp. unfold calculate_sale_tax. cbn [Total_Tax].
  set (adjusted := cost_basis - cumulative_depreciation).
  pose proof (py_max0_monotone (sale_price - adjusted - cumulative_depreciation)
                (sale_price' - adjusted - cumulative_depreciation) ltac:(lra)) as Hmax.
  pose proof (py_max0_nonneg (sale_price - adjusted - cumulative_depreciation)) as Hpos.
  set (g := py_max0 (sale_price - adjusted - cumulative_depreciation)) in *.
  set (g' := py_max0 (sale_price' - adjusted - cumulative_depreciation)) in *.
  assert (H1 : 0 <= (g' - g) * capital_gains_rate) by (apply Qmult_le_0_compat; lra).
  assert (H2 : 0 <= g * capital_gains_rate) by (apply Qmult_le_0_compat; lra).
  split; [lra |].
  intros Hc.
  assert (H3 : 0 <= cumulative_depreciation * recapture_rate)
    by (apply Qmult_le_0_compat; lra).
  lra.
Qed.

Lemma calculate_sale_tax_monotone_witness :
  Total_Tax (calculate_sale_tax 10000000 12000000 3000000 (25 # 100) (20 # 100))
    <= Total_Tax (calculate_sale_tax 10000000 13000000 3000000 (25 # 100) (20 # 100)) /\
  (0 <= 3000000 ->
   0 <= Total_Tax (calculate_sale_tax 10000000 12000000 3000000 (25 # 100) (20 # 100))).
Proof.
  apply (calculate_sale_tax_monotone 10000000 12000000 13000000 3000000
           (25 # 100) (20 # 100)); vm_compute; discriminate.
Defined.

(** The total tax, with the cancellation carried out. *)
Lemma Total_Tax_calculate_sale_tax
    (cost_basis sale_price cumulative_depreciation recapture_rate capital_gains_rate : Q) :
  Total_Tax (calculate_sale_tax cost_basis sale_price cumulative_depreciation
               recapture_rate capital_gains_rate)
    == cumulative_depreciation * recapture_rate
       + py_max0 (sale_price - cost_basis) * capital_gains_rate.
Proof.
  unfold calculate_sale_tax. cbn [Total_Tax].
  now rewrite calculate_sale_tax_remaining_gain.
Qed.

(** ** Tab 3: the sale outcome by holding period *)

(** A sorted column stays sorted under a map that respects the order. *)
Lemma StronglySorted_map_transfer {A : Type} (R R' : Q -> Q -> Prop) (g h : A -> Q)
    (l : list A) :
  (forall x y, In x l -> In y l -> R (g x) (g y) -> R' (h x) (h y)) ->
  StronglySorted R (map g l) -> StronglySorted R' (map h l).
Proof.
  induction l as [| x l IH]; intros Hrel Hsorted; [constructor |].
  cbn [map] in *. apply StronglySorted_inv in Hsorted as [Htail Hhead].
  constructor.
  - apply IH; [| exact Htail].
    intros u v Hu Hv. apply Hrel; now right.
  - rewrite List.Forall_map in *. rewrite List.Forall_forall in *.
    intros y Hy. apply Hrel; [now left | now right | now apply Hhead].
Qed.

Section SaleRows.

Variable df_dep : DataFrame DepreciationRow.
Variables cost_basis sale_price : Q.
Hypothesis labels_distinct : List.NoDup (index df_dep).

(** The loop of tab 3 over any part [sub] of the frame. *)
Lemma sale_rows_spec (sub : DataFrame DepreciationRow) :
  (forall e, In e sub -> In e df_dep) ->
  exists rows,
    sale_rows df_dep cost_basis sale_price (index sub) = Ok rows /\
    map Holding_Period rows = index sub /\
    map Sale_Cumulative_Depreciation rows = column Cumulative_Depreciation sub /\
    Forall (sale_row_of_tax cost_basis sale_price) rows.
Proof.
  induction sub as [| [y d] sub' IH]; intros Hsub.
  - exists []. repeat split; constructor.
  - cbn [index map fst sale_rows].
    rewrite (loc_unique df_dep y d labels_distinct) by (apply Hsub; now left).
    cbn [bind].
    destruct IH as (rows & Hrows & Hyears & Hcum & Hall).
    { intros e He. apply Hsub. now right. }
    fold (index sub'). rewrite Hrows. cbn [bind].
    eexists. split; [reflexivity |].
    split; [cbn [map Holding_Period]; now rewrite Hyears |].
    split; [cbn [map column snd Sale_Cumulative_Depreciation]; f_equal; exact Hcum |].
    constructor; [| exact Hall].
    unfold sale_row_of_tax. cbn. repeat split.
Qed.

End SaleRows.

(** The sale table of tab 3 on a non-zero depreciation period. *)
Lemma sale_by_holding_period_frame
    (property_value land_value dep_years bonus_percent : Q) (years : Z) (sale_price : Q) :
  ~ dep_years == 0 ->
  exists df rows,
    multi_year_cash_flow property_value land_value dep_years bonus_percent years = Ok df /\
    sale_by_holding_period property_value land_value dep_years bonus_percent years sale_price
      = Ok rows /\
    map Holding_Period rows = py_range 1 (years + 1) /\
    map Sale_Cumulative_Depreciation rows = column Cumulative_Depreciation df /\
    Forall (sale_row_of_tax property_value sale_price) rows.
Proof.
  intros Hd. unfold sale_by_holding_period.
  rewrite (multi_year_cash_flow_frame _ _ _ _ _ Hd). cbv zeta. cbn [bind].
  set (df := depreciation_rows _ _ _ _ _).
  assert (Hidx : index df = py_range 1 (years + 1)) by apply index_depreciation_rows.
  assert (Hnd : List.NoDup (index df)) by (rewrite Hidx; apply NoDup_py_range).
  destruct (sale_rows_spec df property_value sale_price Hnd df ltac:(auto))
    as (rows & Hrows & Hyears & Hcum & Hall).
  exists df, rows. rewrite <- Hidx. auto.
Qed.

(** Tab 3 fails only through the schedule (a zero depreciation period);
    otherwise its table has one row per year of the schedule, in order,
    each holding that year's cumulative depreciation and the five results
    of [calculate_sale_tax] on the property value as cost basis, the sale
    price, that cumulative depreciation and the default rates. *)
Theorem sale_by_holding_period_rows
    (property_value land_value dep_years bonus_percent : Q) (years : Z) (sale_price : Q) :
  (dep_years == 0 ->
     sale_by_holding_period property_value land_value dep_years bonus_percent years sale_price
       = Raise ZeroDivisionError) /\
  (~ dep_years == 0 ->
     exists df rows,
       multi_year_cash_flow property_value land_value dep_years bonus_percent years = Ok df /\
       sale_by_holding_period property_value land_value dep_years bonus_percent years
         sale_price = Ok rows /\
       map Holding_Period rows = index df /\
       map Sale_Cumulative_Depreciation rows = column Cumulative_Depreciation df /\
       Forall (sale_row_of_tax property_value sale_price) rows).
Proof.
  split; intros Hd.
  - unfold sale_by_holding_period, multi_year_cash_flow.
    now rewrite (py_truediv_zero _ _ Hd).
  - destruct (sale_by_holding_period_frame property_value land_value dep_years
                bonus_percent years sale_price Hd)
      as (df & rows & Hdf & Hrows & Hyears & Hcum & Hall).
    exists df, rows. repeat split; try assumption.
    pose proof (multi_year_cash_flow_Ok _ _ _ _ _ _ Hdf) as [_ ->].
    now rewrite index_depreciation_rows.
Qed.

Lemma sale_by_holding_period_rows_witness :
  sale_by_holding_period 100 0 0 (1 # 2) 3 120 = Raise ZeroDivisionError /\
  exists df rows,
    multi_year_cash_flow 100 0 (5 # 2) (1 # 2) 3 = Ok df /\
    sale_by_holding_period 100 0 (5 # 2) (1 # 2) 3 120 = Ok rows /\
    map Holding_Period rows = index df /\
    map Sale_Cumulative_Depreciation rows = column Cumulative_Depreciation df /\
    Forall (sale_row_of_tax 100 120) rows.
Proof.
  split.
  - apply (proj1 (sale_by_holding_period_rows 100 0 0 (1 # 2) 3 120)). reflexivity.
  - apply (proj2 (sale_by_holding_period_rows 100 0 (5 # 2) (1 # 2) 3 120)).
    vm_compute. discriminate.
Defined.

(** For valid inputs (non-negative building value, positive period, bonus
    percentage in [0,1]) a longer holding period never raises the adjusted
    basis and never lowers the total gain or the depreciation recapture
    tax of the sale table. *)
Theorem sale_by_holding_period_monotone
    (property_value land_value dep_years bonus_percent : Q) (years : Z) (sale_price : Q) :
  0 <= property_value - land_value -> 0 < dep_years -> 0 <= bonus_percent <= 1 ->
  exists rows,
    sale_by_holding_period property_value land_value dep_years bonus_percent years sale_price
      = Ok rows /\
    non_increasing (map Sale_Adjusted_Basis rows) /\
    non_decreasing (map Sale_Total_Gain rows) /\
    non_decreasing (map Sale_Depreciation_Recapture_Tax rows).
Proof.
  intros Hbv Hdy Hbp.
  assert (Hd : ~ dep_years == 0) by (intros E; lra).
  destruct (sale_by_holding_period_frame property_value land_value dep_years
              bonus_percent years sale_price Hd)
    as (df & rows & Hdf & Hrows & Hyears & Hcum & Hall).
  exists rows. split; [exact Hrows |].
  apply multi_year_cash_flow_Ok in Hdf as [_ Hdf].
  destruct (schedule_amounts_nonneg (property_value - land_value) dep_years
              bonus_percent Hbv Hdy Hbp) as [Hb Ha].
  assert (Hsorted : non_decreasing (map Sale_Cumulative_Depreciation rows)).
  { rewrite Hcum, Hdf. now apply cumulative_non_decreasing. }
  rewrite List.Forall_forall in Hall.
  split; [| split].
  - apply (StronglySorted_map_transfer Qle (fun a b => b <= a)
             Sale_Cumulative_Depreciation); [| exact Hsorted].
    intros x y Hx Hy Hxy.
    destruct (Hall x Hx) as (-> & _). destruct (Hall y Hy) as (-> & _).
    cbn [calculate_sale_tax Adjusted_Basis]. lra.
  - apply (StronglySorted_map_transfer Qle Qle Sale_Cumulative_Depreciation);
      [| exact Hsorted].
    intros x y Hx Hy Hxy.
    destruct (Hall x Hx) as (_ & -> & _). destruct (Hall y Hy) as (_ & -> & _).
    cbn [calculate_sale_tax Total_Gain]. lra.
  - apply (StronglySorted_map_transfer Qle Qle Sale_Cumulative_Depreciation);
      [| exact Hsorted].
    intros x y Hx Hy Hxy.
    destruct (Hall x Hx) as (_ & _ & -> & _). destruct (Hall y Hy) as (_ & _ & -> & _).
    cbn [calculate_sale_tax Depreciation_Recapture_Tax].
    apply Qmult_le_compat_r; [exact Hxy | discriminate].
Qed.

Lemma sale_by_holding_period_monotone_witness :
  exists rows,
    sale_by_holding_period 10000000 2000000 (55 # 2) (4 # 10) 10 12000000 = Ok rows /\
    non_increasing (map Sale_Adjusted_Basis rows) /\
    non_decreasing (map Sale_Total_Gain rows) /\
    non_decreasing (map Sale_Depreciation_Recapture_Tax rows).
Proof.
  apply (sale_by_holding_period_monotone 10000000 2000000 (55 # 2) (4 # 10) 10 12000000).
  - vm_compute. discriminate.
  - reflexivity.
  - split; vm_compute; discriminate.
Defined.

(** ** Tab 4: the exchange *)

(** Tab 4 defers the tax of a sale after a one-year holding period: with
    the box ticked its amount is the total tax of the first row of the
    sale table of tab 3, whatever the modelling horizon and the reinvested
    value; with the box unticked there is no amount. *)
Theorem exchange_simulation_is_first_year_sale
    (property_value land_value dep_years bonus_percent sale_price reinvested_value : Q)
    (years : Z) :
  ~ dep_years == 0 -> (1 <= years)%Z ->
  exchange_simulation property_value land_value dep_years bonus_percent sale_price
    false reinvested_value = Ok None /\
  exists deferred_tax row rows,
    exchange_simulation property_value land_value dep_years bonus_percent sale_price
      true reinvested_value = Ok (Some deferred_tax) /\
    sale_by_holding_period property_value land_value dep_years bonus_percent years sale_price
      = Ok (row :: rows) /\
    Holding_Period row = 1%Z /\
    deferred_tax == Sale_Total_Tax row.
Proof.
  intros Hd Hyears. unfold exchange_simulation.
  rewrite (calculate_depreciation_formula _ _ _ _ Hd). cbv zeta. cbn [bind].
  split; [reflexivity |].
  destruct (sale_by_holding_period_frame property_value land_value dep_years
              bonus_percent years sale_price Hd)
    as (df & rows & Hdf & Hrows & Hyears' & Hcum & Hall).
  apply multi_year_cash_flow_Ok in Hdf as [_ Hdf].
  rewrite depreciation_rows_first_year in Hdf by exact Hyears.
  rewrite Hdf in Hcum. cbn [column map snd Cumulative_Depreciation] in Hcum.
  rewrite py_range_cons in Hyears' by lia.
  destruct rows as [| row rows]; [discriminate Hcum |].
  cbn [map] in Hcum, Hyears'. injection Hcum as Hc _. injection Hyears' as Hy _.
  apply List.Forall_inv in Hall. destruct Hall as (_ & _ & _ & _ & Htax).
  eexists _, row, rows. split; [reflexivity |]. split; [exact Hrows |].
  split; [exact Hy |].
  rewrite Htax, Hc. unfold simulate_1031_exchange.
  rewrite !Total_Tax_calculate_sale_tax. ring.
Qed.

Lemma exchange_simulation_is_first_year_sale_witness :
  exchange_simulation 10000000 2000000 (55 # 2) (4 # 10) 12000000 false 12000000
    = Ok None /\
  exists deferred_tax row rows,
    exchange_simulation 10000000 2000000 (55 # 2) (4 # 10) 12000000 true 12000000
      = Ok (Some deferred_tax) /\
    sale_by_holding_period 10000000 2000000 (55 # 2) (4 # 10) 10 12000000
      = Ok (row :: rows) /\
    Holding_Period row = 1%Z /\
    deferred_tax == Sale_Total_Tax row.
Proof.
  apply (exchange_simulation_is_first_year_sale
           10000000 2000000 (55 # 2) (4 # 10) 12000000 12000000 10).
  - vm_compute. discriminate.
  - lia.
Defined.

(** ** Operating cash flow: failure and bounds *)

(** The rows selected by a label are as many as its occurrences in the index. *)
Lemma loc_selection_count {A : Type} (df : DataFrame A) (label : Z) :
  length (List.filter (fun r => (fst r =? label)%Z) df)
    = count_occ Z.eq_dec (index df) label.
Proof.
  induction df as [| [l x] df IH]; [reflexivity |].
  cbn [List.filter index map fst count_occ].
  destruct (Z.eqb_spec l label) as [-> | Hne].
  - destruct (Z.eq_dec label label) as [_ | Hne]; [| congruence].
    cbn [length]. f_equal. exact IH.
  - destruct (Z.eq_dec l label) as [E | _]; [congruence | exact IH].
Qed.

(** [loc] by the number of rows carrying the label. *)
Lemma loc_by_count {A : Type} (df : DataFrame A) (label : Z) :
  match count_occ Z.eq_dec (index df) label with
  | O => loc df label = Raise KeyError
  | S O => exists r, loc df label = Ok r
  | S (S _) => loc df label = Raise ValueError
  end.
Proof.
  rewrite <- loc_selection_count. unfold loc.
  destruct (List.filter (fun r => (fst r =? label)%Z) df) as [| r [| r' rest]];
    cbn [length]; eauto.
Qed.

Section CashFlowOutcome.

Variable df_dep : DataFrame DepreciationRow.
Variables rental_income operating_expenses tax_bracket : Q.

(** Over labels of the index the loop either completes, every label being
    carried by exactly one row, or stops on [ValueError]. *)
Lemma cash_flow_rows_outcome (years : list Z) (cumulative : Q) :
  (forall y, In y years -> In y (index df_dep)) ->
  (exists rows,
     cash_flow_rows df_dep rental_income operating_expenses tax_bracket years cumulative
       = Ok rows /\
     Forall (fun y => count_occ Z.eq_dec (index df_dep) y = 1%nat) years) \/
  cash_flow_rows df_dep rental_income operating_expenses tax_bracket years cumulative
    = Raise ValueError.
Proof.
  revert cumulative. induction years as [| y ys IH]; intros c Hin.
  - left. exists []. split; [reflexivity | constructor].
  - cbn [cash_flow_rows].
    pose proof (loc_by_count df_dep y) as Hloc.
    assert (Hy : In y (index df_dep)) by (apply Hin; now left).
    apply (count_occ_In Z.eq_dec) in Hy.
    destruct (count_occ Z.eq_dec (index df_dep) y) as [| [| n]] eqn:Hcount; [lia | |].
    + destruct Hloc as [r ->]. cbn [bind].
      match goal with
      | |- context [cash_flow_rows _ _ _ _ ys ?c'] =>
          destruct (IH c' ltac:(intros z Hz; apply Hin; now right))
            as [(rows & -> & Hall) | ->]
      end.
      * left. cbn [bind]. eexists. split; [reflexivity |].
        constructor; assumption.
      * right. reflexivity.
    + right. now rewrite Hloc.
Qed.

(** What every record of a completed loop holds. *)
Lemma cash_flow_rows_Forall (years : list Z) (cumulative : Q) (rows : list CashFlowRow) :
  cash_flow_rows df_dep rental_income operating_expenses tax_bracket years cumulative
    = Ok rows ->
  Forall (fun cf =>
            NOI cf = rental_income - operating_expenses /\
            Taxable_Operating_Income cf = NOI cf - Depreciation cf /\
            Tax_Liability cf =
              (if Qgt_bool (Taxable_Operating_Income cf) 0
               then Taxable_Operating_Income cf * (tax_bracket / 100) else 0) /\
            Operating_Cash_Flow cf = NOI cf - Tax_Liability cf) rows.
Proof.
  revert cumulative rows. induction years as [| y ys IH]; intros c rows Hrows.
  - injection Hrows as <-. constructor.
  - cbn [cash_flow_rows] in Hrows.
    destruct (loc df_dep y) as [r | e]; [| discriminate Hrows].
    cbn [bind] in Hrows.
    match type of Hrows with
    | context [cash_flow_rows _ _ _ _ ys ?c'] =>
        destruct (cash_flow_rows df_dep rental_income operating_expenses tax_bracket
                    ys c') as [tail | e] eqn:Htail; [| discriminate Hrows];
        apply IH in Htail
    end.
    cbn [bind] in Hrows. injection Hrows as <-.
    constructor; [| exact Htail]. cbn. repeat split.
Qed.

End CashFlowOutcome.

(** [compute_operating_cash_flow] succeeds exactly on the frames whose
    labels are distinct; on any other frame it raises [ValueError], and it
    never raises [KeyError] or [ZeroDivisionError]. *)
Theorem compute_operating_cash_flow_outcome
    (df_dep : DataFrame DepreciationRow)
    (rental_income operating_expenses tax_bracket : Q) :
  (List.NoDup (index df_dep) ->
   exists rows,
     compute_operating_cash_flow df_dep rental_income operating_expenses tax_bracket
       = Ok rows) /\
  (~ List.NoDup (index df_dep) ->
   compute_operating_cash_flow df_dep rental_income operating_expenses tax_bracket
     = Raise ValueError).
Proof.
  unfold compute_operating_cash_flow. split.
  - intros Hnd.
    destruct (cash_flow_rows_spec df_dep rental_income operating_expenses tax_bracket
                Hnd df_dep 0 ltac:(auto)) as (rows & Hrows & _).
    now exists rows.
  - intros Hdup.
    destruct (cash_flow_rows_outcome df_dep rental_income operating_expenses tax_bracket
                (index df_dep) 0 ltac:(auto)) as [(rows & _ & Hall) | Hraise];
      [| exact Hraise].
    exfalso. apply Hdup. apply (NoDup_count_occ Z.eq_dec). intros y.
    destruct (in_dec Z.eq_dec y (index df_dep)) as [Hin | Hnin].
    + rewrite List.Forall_forall in Hall. rewrite (Hall y Hin). lia.
    + apply (count_occ_not_In Z.eq_dec) in Hnin. lia.
Qed.

Lemma compute_operating_cash_flow_outcome_witness :
  let row := {| Bonus_Depreciation := 0; Normal_Depreciation := 10;
                Total_Depreciation := 10; Cumulative_Depreciation := 10 |} in
  (exists rows,
     compute_operating_cash_flow [(1%Z, row); (2%Z, row)] 500000 150000 37 = Ok rows) /\
  compute_operating_cash_flow [(1%Z, row); (2%Z, row); (1%Z, row)] 500000 150000 37
    = Raise ValueError.
Proof.
  cbv zeta. split.
  - apply (proj1 (compute_operating_cash_flow_outcome _ 500000 150000 37)).
    cbn [index map fst]. constructor; [| constructor; [| constructor]].
    + intros [H | []]. discriminate H.
    + intros [].
  - apply (proj2 (compute_operating_cash_flow_outcome _ 500000 150000 37)).
    cbn [index map fst]. intros Hnd.
    apply List.NoDup_cons_iff in Hnd as [Hnin _]. apply Hnin. right. now left.
Defined.

(** In every projection that completes, with a non-negative tax bracket:
    the tax is never negative (a loss is not refunded) and the operating
    cash flow never exceeds the net operating income; when moreover the
    bracket is at most 100 and the year's depreciation is not negative, the
    tax is at most the bracket's share of a non-negative net operating
    income, and the cash flow is then not negative. *)
Theorem compute_operating_cash_flow_bounds
    (df_dep : DataFrame DepreciationRow)
    (rental_income operating_expenses tax_bracket : Q) (rows : list CashFlowRow) :
  0 <= tax_bracket ->
  compute_operating_cash_flow df_dep rental_income operating_expenses tax_bracket
    = Ok rows ->
  Forall (fun cf =>
            0 <= Tax_Liability cf /\
            Operating_Cash_Flow cf <= NOI cf /\
            (tax_bracket <= 100 -> 0 <= Depreciation cf -> 0 <= NOI cf ->
               Tax_Liability cf <= NOI cf * (tax_bracket / 100) /\
               0 <= Operating_Cash_Flow cf)) rows.
Proof.
  intros Htb Hrows. unfold compute_operating_cash_flow in Hrows.
  apply cash_flow_rows_Forall in Hrows.
  eapply List.Forall_impl; [| exact Hrows]. cbn beta.
  intros cf (Hnoi & Htaxable & Htax & Hocf).
  assert (Hrate : 0 <= tax_bracket / 100) by (apply Qdiv_nonneg; [exact Htb | reflexivity]).
  set (rate := tax_bracket / 100) in *.
  destruct (Qgt_bool (Taxable_Operating_Income cf) 0) eqn:E.
  - apply Qgt_bool_true in E.
    assert (H1 : 0 <= Taxable_Operating_Income cf * rate)
      by (apply Qmult_le_0_compat; lra).
    rewrite Hocf, Htax. split; [lra |]. split; [lra |].
    intros Hcap Hdep Hn.
    assert (H2 : 0 <= Depreciation cf * rate) by (apply Qmult_le_0_compat; lra).
    assert (Hshare : rate <= 1).
    { subst rate. apply Qle_shift_div_r; [reflexivity | lra]. }
    assert (H3 : 0 <= Taxable_Operating_Income cf * (1 - rate))
      by (apply Qmult_le_0_compat; lra).
    rewrite Htaxable in *. split; lra.
  - rewrite Hocf, Htax. split; [lra |]. split; [lra |].
    intros Hcap Hdep Hn.
    assert (H2 : 0 <= NOI cf * rate) by (apply Qmult_le_0_compat; lra).
    split; lra.
Qed.

Lemma compute_operating_cash_flow_bounds_witness :
  let df :=
    [(1%Z, {| Bonus_Depreciation := 3200000; Normal_Depreciation := 1920000 # 11;
              Total_Depreciation := 37120000 # 11;
              Cumulative_Depreciation := 37120000 # 11 |});
     (2%Z, {| Bonus_Depreciation := 0; Normal_Depreciation := 1920000 # 11;
              Total_Depreciation := 1920000 # 11;
              Cumulative_Depreciation := 39040000 # 11 |})] in
  exists rows,
    compute_operating_cash_flow df 500000 150000 37 = Ok rows /\
    Forall (fun cf =>
              0 <= Tax_Liability cf /\
              Operating_Cash_Flow cf <= NOI cf /\
              (37 <= 100 -> 0 <= Depreciation cf -> 0 <= NOI cf ->
                 Tax_Liability cf <= NOI cf * (37 / 100) /\
                 0 <= Operating_Cash_Flow cf)) rows.
Proof.
  intros df. eexists. split; [vm_compute; reflexivity |].
  apply (compute_operating_cash_flow_bounds df 500000 150000 37);
    [vm_compute; discriminate | vm_compute; reflexivity].
Defined.

(** ** Tab 6: the cash flow over the schedule *)

(** For valid inputs the yearly total depreciation of a schedule never
    increases. *)
Lemma schedule_total_non_increasing
    (building_value dep_years bonus_percent : Q) (years : Z) :
  0 <= building_value -> 0 < dep_years -> 0 <= bonus_percent <= 1 ->
  non_increasing
    (column Total_Depreciation
       (depreciation_rows
          ((building_value - building_value * bonus_percent) / dep_years)
          (building_value * bonus_percent) dep_years (py_range 1 (years + 1)) 0)).
Proof.
  intros Hbv Hdy Hbp.
  destruct (schedule_amounts_nonneg building_value dep_years bonus_percent Hbv Hdy Hbp)
    as [Hb Ha].
  set (b := building_value * bonus_percent) in *.
  set (a := (building_value - b) / dep_years) in *.
  destruct (Z.le_gt_cases years 0) as [Hnone | Hsome].
  - rewrite py_range_nil by lia. constructor.
  - rewrite depreciation_rows_first_year by lia.
    cbn [column map snd Total_Depreciation].
    destruct (total_non_increasing_from a b dep_years (years + 1) Ha
                (Z.to_nat (years + 1 - 2)) 2%Z (0 + (b + a))
                ltac:(lia) eq_refl) as (Hsorted & Hle & _).
    constructor; [exact Hsorted |].
    eapply List.Forall_impl; [| exact Hle]. cbn beta. intros t Ht. lra.
Qed.

Section CashFlowColumns.

Variable df_dep : DataFrame DepreciationRow.
Variables rental_income operating_expenses tax_bracket : Q.
Hypothesis labels_distinct : List.NoDup (index df_dep).

(** The depreciation column of the projection is the total depreciation
    column of the schedule. *)
Lemma cash_flow_rows_columns (sub : DataFrame DepreciationRow) (cumulative : Q) :
  (forall e, In e sub -> In e df_dep) ->
  exists rows,
    cash_flow_rows df_dep rental_income operating_expenses tax_bracket
      (index sub) cumulative = Ok rows /\
    map Year rows = index sub /\
    map Depreciation rows = column Total_Depreciation sub.
Proof.
  revert cumulative. induction sub as [| [y d] sub' IH]; intros c Hsub.
  - exists []. repeat split.
  - cbn [index map fst cash_flow_rows].
    rewrite (loc_unique df_dep y d labels_distinct) by (apply Hsub; now left).
    cbn [bind].
    match goal with
    | |- context [cash_flow_rows _ _ _ _ _ ?c'] =>
        destruct (IH c' ltac:(intros e He; apply Hsub; now right))
          as (rows & Hrows & Hyears & Hdep)
    end.
    fold (index sub'). rewrite Hrows. cbn [bind].
    eexists. split; [reflexivity |].
    cbn [map column snd Year Depreciation]. split; f_equal; assumption.
Qed.

End CashFlowColumns.

(** For valid inputs (non-negative building value, positive period, bonus
    percentage in [0,1]) and a non-negative tax bracket, tab 6 shows one
    record per year of the horizon in which, as the depreciation shield
    shrinks, the tax liability never decreases and the operating cash flow
    never increases from one year to a later one. *)
Theorem operating_cash_flow_analysis_monotone
    (property_value land_value dep_years bonus_percent : Q) (years : Z)
    (rental_income operating_expenses tax_bracket : Q) :
  0 <= property_value - land_value -> 0 < dep_years -> 0 <= bonus_percent <= 1 ->
  0 <= tax_bracket ->
  exists rows,
    operating_cash_flow_analysis property_value land_value dep_years bonus_percent years
      rental_income operating_expenses tax_bracket = Ok rows /\
    map Year rows = py_range 1 (years + 1) /\
    non_decreasing (map Tax_Liability rows) /\
    non_increasing (map Operating_Cash_Flow rows).
Proof.
  intros Hbv Hdy Hbp Htb.
  assert (Hd : ~ dep_years == 0) by (intros E; lra).
  unfold operating_cash_flow_analysis.
  rewrite (multi_year_cash_flow_frame _ _ _ _ _ Hd). cbv zeta. cbn [bind].
  pose proof (schedule_total_non_increasing (property_value - land_value) dep_years
                bonus_percent years Hbv Hdy Hbp) as Hsorted.
  set (df := depreciation_rows _ _ _ _ _) in *.
  assert (Hidx : index df = py_range 1 (years + 1)) by apply index_depreciation_rows.
  assert (Hnd : List.NoDup (index df)) by (rewrite Hidx; apply NoDup_py_range).
  unfold compute_operating_cash_flow.
  destruct (cash_flow_rows_columns df rental_income operating_expenses tax_bracket
              Hnd df 0 ltac:(auto)) as (rows & Hrows & Hyears & Hdep).
  exists rows. split; [exact Hrows |]. split; [now rewrite Hyears |].
  rewrite <- Hdep in Hsorted.
  pose proof (cash_flow_rows_Forall _ _ _ _ _ _ _ Hrows) as Hall.
  rewrite List.Forall_forall in Hall.
  assert (Hrate : 0 <= tax_bracket / 100)
    by (apply Qdiv_nonneg; [exact Htb | reflexivity]).
  assert (Htax : forall x y, In x rows -> In y rows ->
                 Depreciation y <= Depreciation x ->
                 Tax_Liability x <= Tax_Liability y).
  { intros x y Hx Hy Hxy.
    destruct (Hall x Hx) as (Hnx & Htx & -> & _).
    destruct (Hall y Hy) as (Hny & Hty & -> & _).
    set (rate := tax_bracket / 100) in *.
    rewrite Htx, Hty, Hnx, Hny.
    set (noi := rental_income - operating_expenses).
    destruct (Qgt_bool (noi - Depreciation x) 0) eqn:Ex;
      destruct (Qgt_bool (noi - Depreciation y) 0) eqn:Ey;
      try apply Qgt_bool_true in Ex; try apply Qgt_bool_false in Ex;
      try apply Qgt_bool_true in Ey; try apply Qgt_bool_false in Ey.
    - assert (0 <= (Depreciation x - Depreciation y) * rate)
        by (apply Qmult_le_0_compat; lra).
      lra.
    - lra.
    - apply Qmult_le_0_compat; lra.
    - lra. }
  split.
  - apply (StronglySorted_map_transfer (fun a b => b <= a) Qle Depreciation);
      [exact Htax | exact Hsorted].
  - apply (StronglySorted_map_transfer (fun a b => b <= a) (fun a b => b <= a)
             Depreciation); [| exact Hsorted].
    intros x y Hx Hy Hxy. pose proof (Htax x y Hx Hy Hxy) as Hle.
    destruct (Hall x Hx) as (Hnx & _ & _ & ->).
    destruct (Hall y Hy) as (Hny & _ & _ & ->).
    rewrite Hnx, Hny. lra.
Qed.

Lemma operating_cash_flow_analysis_monotone_witness :
  exists rows,
    operating_cash_flow_analysis 10000000 2000000 (55 # 2) (4 # 10) 30
      500000 150000 37 = Ok rows /\
    map Year rows = py_range 1 (30 + 1) /\
    non_decreasing (map Tax_Liability rows) /\
    non_increasing (map Operating_Cash_Flow rows).
Proof.
  apply (operating_cash_flow_analysis_monotone 10000000 2000000 (55 # 2) (4 # 10) 30
           500000 150000 37).
  - vm_compute. discriminate.
  - reflexivity.
  - split; vm_compute; discriminate.
  - vm_compute. discriminate.
Defined.

(** ** Tab 5 and the sidebar: the tables by property type *)

Lemma default_bonus_keys (property_type : string) :
  ~ In property_type property_types ->
  py_getitem default_bonus property_type = Raise KeyError.
Proof.
  intros Hnin. unfold py_getitem, default_bonus.
  rewrite not_elem_of_list_to_map_1; [reflexivity |].
  intros Hin. apply Hnin. apply list_elem_of_In in Hin. exact Hin.
Qed.

(** The two tables keyed by property type cover the same keys.  For each
    property type the application offers, [default_bonus] holds a bonus
    percentage within the slider's range [0,1] and the asset breakdown is
    not empty; for any other key, indexing [default_bonus] raises
    [KeyError] while [get_asset_breakdown] returns the empty mapping. *)
Theorem property_type_tables (property_type : string) :
  (In property_type property_types ->
   exists bonus_percent,
     py_getitem default_bonus property_type = Ok bonus_percent /\
     0 <= bonus_percent <= 1 /\
     get_asset_breakdown property_type <> []) /\
  (~ In property_type property_types ->
   py_getitem default_bonus property_type = Raise KeyError /\
   get_asset_breakdown property_type = []).
Proof.
  split.
  - intros Hin. cbn in Hin.
    destruct Hin as [<- | [<- | [<- | [<- | []]]]];
      (eexists; split; [vm_compute; reflexivity |];
       split; [split; vm_compute; discriminate | vm_compute; discriminate]).
  - intros Hnin. split; [now apply default_bonus_keys |].
    unfold get_asset_breakdown.
    destruct (breakdown !! property_type) eqn:E; [| reflexivity].
    exfalso. apply Hnin, breakdown_keys. rewrite E. eauto.
Qed.

Lemma property_type_tables_witness :
  (exists bonus_percent,
     py_getitem default_bonus "Retail" = Ok bonus_percent /\
     0 <= bonus_percent <= 1 /\
     get_asset_breakdown "Retail" <> []) /\
  (py_getitem default_bonus "Industrial" = Raise KeyError /\
   get_asset_breakdown "Industrial" = []).
Proof.
  split.
  - apply (proj1 (property_type_tables "Retail"%string)). cbn. auto.
  - apply (proj2 (property_type_tables "Industrial"%string)).
    cbn. intros [H | [H | [H | [H | []]]]]; discriminate H.
Defined.

(** The rows of the comparison, one per property type. *)
Lemma comparisons_rows (property_value land_value dep_years : Q) :
  ~ dep_years == 0 ->
  let row ptype bonus_pct :=
    let building_value := property_value - land_value in
    let bonus := building_value * bonus_pct in
    let normal := (building_value - bonus) / dep_years in
    {| Property_Type := ptype;
       Bonus_Percent_Label := format_0f (bonus_pct * 100);
       Comparison_Bonus_Depreciation := bonus;
       Comparison_Normal_Depreciation := normal;
       Total_First_Year_Depreciation := bonus + normal |} in
  comparisons property_value land_value dep_years =
    Ok [row "Multifamily"%string (4 # 10); row "Hotel"%string (5 # 10);
        row "Retail"%string (35 # 100); row "Office"%string (3 # 10)].
Proof.
  intros Hd. cbv zeta. unfold comparisons, property_types.
  cbn [comparison_rows].
  change (py_getitem default_bonus "Multifamily") with (Ok (4 # 10) : result Q).
  change (py_getitem default_bonus "Hotel") with (Ok (5 # 10) : result Q).
  change (py_getitem default_bonus "Retail") with (Ok (35 # 100) : result Q).
  change (py_getitem default_bonus "Office") with (Ok (3 # 10) : result Q).
  cbn [bind].
  rewrite !(calculate_depreciation_formula _ _ _ _ Hd). cbv zeta. cbn [bind].
  reflexivity.
Qed.

(** The comparison of tab 5 fails exactly on a zero depreciation period,
    with [ZeroDivisionError] and never with [KeyError]; otherwise it has
    one row per property type, in the order of the list, each holding the
    figures of [calculate_depreciation] at that type's default bonus. *)
Theorem comparisons_outcome (property_value land_value dep_years : Q) :
  (dep_years == 0 ->
   comparisons property_value land_value dep_years = Raise ZeroDivisionError) /\
  (~ dep_years == 0 ->
   exists rows,
     comparisons property_value land_value dep_years = Ok rows /\
     map Property_Type rows = property_types /\
     Forall (fun r =>
               exists bonus_pct,
                 py_getitem default_bonus (Property_Type r) = Ok bonus_pct /\
                 Bonus_Percent_Label r = format_0f (bonus_pct * 100) /\
                 calculate_depreciation property_value land_value dep_years bonus_pct
                   = Ok (Comparison_Bonus_Depreciation r,
                         Comparison_Normal_Depreciation r,
                         Total_First_Year_Depreciation r)) rows).
Proof.
  split; intros Hd.
  - unfold comparisons, property_types. cbn [comparison_rows].
    change (py_getitem default_bonus "Multifamily") with (Ok (4 # 10) : result Q).
    cbn [bind]. unfold calculate_depreciation.
    now rewrite (py_truediv_zero _ _ Hd).
  - rewrite (comparisons_rows _ _ _ Hd). cbv zeta.
    eexists. split; [reflexivity |]. split; [reflexivity |].
    repeat constructor;
      (eexists; split; [vm_compute; reflexivity |]; split; [reflexivity |];
       now rewrite (calculate_depreciation_formula _ _ _ _ Hd)).
Qed.

Lemma comparisons_outcome_witness :
  comparisons 10000000 2000000 0 = Raise ZeroDivisionError /\
  exists rows,
    comparisons 10000000 2000000 (55 # 2) = Ok rows /\
    map Property_Type rows = property_types /\
    Forall (fun r =>
              exists bonus_pct,
                py_getitem default_bonus (Property_Type r) = Ok bonus_pct /\
                Bonus_Percent_Label r = format_0f (bonus_pct * 100) /\
                calculate_depreciation 10000000 2000000 (55 # 2) bonus_pct
                  = Ok (Comparison_Bonus_Depreciation r,
                        Comparison_Normal_Depreciation r,
                        Total_First_Year_Depreciation r)) rows.
Proof.
  split.
  - apply (proj1 (comparisons_outcome 10000000 2000000 0)). reflexivity.
  - apply (proj2 (comparisons_outcome 10000000 2000000 (55 # 2))).
    vm_compute. discriminate.
Defined.

(** A higher bonus percentage gives a higher bonus and a lower annual
    amount. *)
Lemma bonus_trade_off (building_value dep_years low high : Q) :
  0 <= building_value -> 0 < dep_years -> low <= high ->
  building_value * low <= building_value * high /\
  (building_value - building_value * high) / dep_years
    <= (building_value - building_value * low) / dep_years.
Proof.
  intros Hbv Hdy Hle.
  assert (Hd : 0 <= building_value * (high - low)) by (apply Qmult_le_0_compat; lra).
  split; [lra |].
  unfold Qdiv. apply Qmult_le_compat_r; [lra |].
  apply Qinv_le_0_compat. lra.
Qed.

(** For a non-negative building value and a positive period, the
    comparison of tab 5 follows the default bonus: a property type shown
    with a higher bonus percentage never has a lower bonus depreciation nor
    a higher normal depreciation. *)
Theorem comparisons_ranked_by_bonus (property_value land_value dep_years : Q) :
  0 <= property_value - land_value -> 0 < dep_years ->
  exists rows,
    comparisons property_value land_value dep_years = Ok rows /\
    forall r1 r2 : ComparisonRow,
      In r1 rows -> In r2 rows ->
      (Bonus_Percent_Label r1 <= Bonus_Percent_Label r2)%Z ->
      Comparison_Bonus_Depreciation r1 <= Comparison_Bonus_Depreciation r2 /\
      Comparison_Normal_Depreciation r2 <= Comparison_Normal_Depreciation r1.
Proof.
  intros Hbv Hdy.
  rewrite comparisons_rows by (intros E; lra). cbv zeta.
  eexists. split; [reflexivity |].
  intros r1 r2 H1 H2.
  cbn [In] in H1, H2.
  destruct H1 as [<- | [<- | [<- | [<- | []]]]];
    destruct H2 as [<- | [<- | [<- | [<- | []]]]];
    cbn [Bonus_Percent_Label Comparison_Bonus_Depreciation
         Comparison_Normal_Depreciation];
    intros Hlabel; vm_compute in Hlabel;
    try (exfalso; now apply Hlabel);
    apply bonus_trade_off; try assumption; vm_compute; discriminate.
Qed.

Lemma comparisons_ranked_by_bonus_witness :
  exists rows,
    comparisons 10000000 2000000 (55 # 2) = Ok rows /\
    forall r1 r2 : ComparisonRow,
      In r1 rows -> In r2 rows ->
      (Bonus_Percent_Label r1 <= Bonus_Percent_Label r2)%Z ->
      Comparison_Bonus_Depreciation r1 <= Comparison_Bonus_Depreciation r2 /\
      Comparison_Normal_Depreciation r2 <= Comparison_Normal_Depreciation r1.
Proof.
  apply (comparisons_ranked_by_bonus 10000000 2000000 (55 # 2)).
  - vm_compute. discriminate.
  - reflexivity.
Defined.

(** ** The two-decimal format *)

Lemma Qfloor_rest (x : Q) :
  0 <= x - inject_Z (Qfloor x) /\ x - inject_Z (Qfloor x) < 1.
Proof.
  pose proof (Qfloor_le x) as Hlow. pose proof (Qlt_floor x) as Hhigh.
  rewrite inject_Z_plus in Hhigh. change (inject_Z 1) with 1 in Hhigh.
  split; lra.
Qed.

(** The amount shown by the two-decimal format is within half a hundredth
    of the value, and an amount that is a whole number of hundredths is
    shown as it is. *)
Theorem format_2f_accuracy :
  (forall x : Q, Qabs (x - inject_Z (format_2f x) / 100) <= 1 # 200) /\
  (forall c : Z, format_2f (inject_Z c / 100) = c).
Proof.
  split.
  - intros x. unfold format_2f. cbv zeta.
    destruct (Qfloor_rest (x * 100)) as [Hr0 Hr1].
    set (low := Qfloor (x * 100)) in *.
    apply Qabs_Qle_condition.
    assert (Hup : inject_Z (low + 1) == inject_Z low + 1)
      by (rewrite inject_Z_plus; reflexivity).
    assert (Hdiv : forall q : Q, q / 100 == q * (1 # 100)) by (intros q; field).
    destruct (Qcompare_spec (x * 100 - inject_Z low) (1 # 2)) as [Heq | Hlt | Hgt].
    + destruct (Z.even low); rewrite Hdiv, ?Hup; split; lra.
    + rewrite Hdiv. split; lra.
    + rewrite Hdiv, Hup. split; lra.
  - intros c. unfold format_2f. cbv zeta.
    assert (Hscaled : inject_Z c / 100 * 100 == inject_Z c) by field.
    assert (Hlow : Qfloor (inject_Z c / 100 * 100) = c)
      by (rewrite Hscaled; apply Qfloor_Z).
    rewrite Hlow.
    assert (Hrest : (inject_Z c / 100 * 100 - inject_Z c ?= 1 # 2) = Lt).
    { rewrite Hscaled. change (inject_Z c - inject_Z c < 1 # 2). lra. }
    now rewrite Hrest.
Qed.

(** * The schedule in rounded arithmetic *)

(** ** Consequences of the standard model *)



(** Exact arithmetic is the standard model without rounding error. *)
#[export] Instance exact_arithmetic : StandardModel (fun x => x) 0.
Proof.
  split.
  - intros x y H. exact H.
  - intros x. reflexivity.
  - apply Qle_refl.
  - intros x. cbn beta.
    setoid_replace (x - x) with 0 using relation Qeq by ring.
    rewrite Qmult_0_l. apply Qle_refl.
Qed.

Section Rounding.

Context {rnd : Q -> Q} {u : Q} {model : StandardModel rnd u}.

#[local] Instance rnd_compat : Proper (Qeq ==> Qeq) rnd.
Proof.
  intros x y Hxy. apply Qle_antisym; apply rnd_monotone; rewrite Hxy; apply Qle_refl.
Qed.

Lemma rnd_0 : rnd 0 == 0.
Proof.
  pose proof (rnd_error 0) as H. apply Qabs_Qle_condition in H.
  change (Qabs 0) with 0 in H. rewrite Qmult_0_r in H.
  destruct H as [H1 H2]. lra.
Qed.

Lemma rnd_nonneg (x : Q) : 0 <= x -> 0 <= rnd x.
Proof.
  intros Hx. rewrite <- rnd_0. now apply rnd_monotone.
Qed.

Lemma rnd_upper (x : Q) : 0 <= x -> rnd x <= x * (1 + u).
Proof.
  intros Hx. pose proof (rnd_error x) as H. apply Qabs_Qle_condition in H.
  rewrite (Qabs_pos x Hx) in H. destruct H as [_ H]. lra.
Qed.

Lemma rnd_fixed (x y : Q) : x == rnd y -> rnd x == x.
Proof.
  intros ->. apply rnd_idempotent.
Qed.



Lemma tolerance_succ (n : Z) : (1 + u) ^ (n + 1) == (1 + u) ^ n * (1 + u).
Proof.
  rewrite Qpower_plus; [reflexivity |].
  pose proof unit_roundoff. intros E. lra.
Qed.

(** The amounts computed before the loop, from a rounded building value. *)
Lemma rounded_amounts (building_value dep_years bonus_percent : Q) :
  rnd building_value == building_value ->
  0 <= building_value -> 0 < dep_years -> 0 <= bonus_percent <= 1 ->
  let bonus := rnd (building_value * bonus_percent) in
  let remaining := rnd (building_value - bonus) in
  let annual := rnd (remaining / dep_years) in
  0 <= bonus <= building_value /\
  0 <= remaining <= building_value /\
  remaining <= (building_value - bonus) * (1 + u) /\
  0 <= annual /\
  annual * dep_years <= remaining * (1 + u) /\
  (1 <= dep_years -> annual <= remaining).
Proof.
  intros HB Hbv Hdy [Hb0 Hb1]. cbv zeta.
  set (b := rnd (building_value * bonus_percent)).
  set (r := rnd (building_value - b)).
  assert (Hprod : 0 <= building_value * bonus_percent)
    by (apply Qmult_le_0_compat; assumption).
  assert (Hrest : 0 <= building_value * (1 - bonus_percent))
    by (apply Qmult_le_0_compat; lra).
  assert (Hb : 0 <= b) by (apply rnd_nonneg; exact Hprod).
  assert (HbB : b <= building_value).
  { rewrite <- HB. apply rnd_monotone. lra. }
  assert (Hr : 0 <= r) by (apply rnd_nonneg; lra).
  assert (HrB : r <= building_value).
  { rewrite <- HB. apply rnd_monotone. lra. }
  assert (Hq : 0 <= r / dep_years) by (apply Qdiv_nonneg; assumption).
  repeat split; try assumption.
  - apply rnd_upper. lra.
  - apply rnd_nonneg. exact Hq.
  - apply Qle_trans with (r / dep_years * (1 + u) * dep_years).
    + apply Qmult_le_compat_r; [apply rnd_upper; exact Hq | lra].
    + apply Qle_lteq. right. field. lra.
  - intros Hone. rewrite <- (rnd_fixed r (building_value - b)) at 2 by reflexivity.
    apply rnd_monotone. apply Qdiv_le_self; assumption.
Qed.

(** ** The loop in rounded arithmetic *)

Section RoundedRows.

Variables annual_normal_dep bonus_dep dep_years : Q.
Hypothesis annual_nonneg : 0 <= annual_normal_dep.
Hypothesis bonus_nonneg : 0 <= bonus_dep.
Hypothesis annual_rounded : rnd annual_normal_dep == annual_normal_dep.

Let rows := Num.depreciation_rows (rounded rnd) annual_normal_dep bonus_dep dep_years.


Variable stop : Z.


Hypothesis whole_years : (1 <= Qfloor dep_years)%Z.



End RoundedRows.

(** ** The first year and the schedule in rounded arithmetic *)

(** The triple of [calculate_depreciation] in rounded arithmetic. *)
Lemma rounded_calculate_depreciation_formula
    (property_value land_value dep_years bonus_percent : Q) :
  ~ dep_years == 0 ->
  Num.calculate_depreciation (rounded rnd) property_value land_value dep_years bonus_percent =
    let building_value := rnd (property_value - land_value) in
    let bonus := rnd (building_value * bonus_percent) in
    let normal := rnd (rnd (building_value - bonus) / dep_years) in
    Ok (bonus, normal, rnd (bonus + normal)).
Proof.
  intros Hd. unfold Num.calculate_depreciation.
  cbn [f_add f_sub f_mul f_div rounded].
  destruct (Qeq_bool dep_years 0) eqn:E; [| reflexivity].
  apply Qeq_bool_iff in E. contradiction.
Qed.




(** In arithmetic that rounds every operation with relative error at most
    [u], for a non-negative building value, a period of at least one year
    and a bonus percentage in [0,1]: the bonus and the normal depreciation
    lie between 0 and the building value, the first-year total is at least
    each of them, and it exceeds the building value by at most the
    tolerance of two roundings. *)
Theorem calculate_depreciation_bounds
    (property_value land_value dep_years bonus_percent : Q) :
  let building_value := rnd (property_value - land_value) in
  0 <= building_value -> 1 <= dep_years -> 0 <= bonus_percent <= 1 ->
  exists bonus normal total,
    Num.calculate_depreciation (rounded rnd) property_value land_value dep_years
      bonus_percent = Ok (bonus, normal, total) /\
    0 <= bonus <= building_value /\
    0 <= normal <= building_value /\
    bonus <= total /\ normal <= total /\
    total <= building_value * (1 + u) ^ 2.
Proof.
  cbv zeta. intros Hbv Hdy Hbp.
  rewrite rounded_calculate_depreciation_formula by (intros E; lra). cbv zeta.
  set (B := rnd (property_value - land_value)) in *.
  assert (HB : rnd B == B) by apply rnd_idempotent.
  destruct (rounded_amounts B dep_years bonus_percent HB Hbv ltac:(lra) Hbp)
    as ([Hb0 HbB] & [Hr0 HrB] & Hr & Ha & _ & Har).
  specialize (Har Hdy).
  set (b := rnd (B * bonus_percent)) in *.
  set (r := rnd (B - b)) in *.
  set (a := rnd (r / dep_years)) in *.
  assert (Hp : 1 <= 1 + u) by (pose proof unit_roundoff; lra).
  do 3 eexists. split; [reflexivity |].
  split; [split; assumption |]. split; [split; lra |].
  split; [| split].
  - apply Qle_trans with (rnd b); [| apply rnd_monotone; lra].
    apply Qle_lteq. right. symmetry. apply rnd_idempotent.
  - apply Qle_trans with (rnd a); [| apply rnd_monotone; lra].
    apply Qle_lteq. right. symmetry. apply rnd_idempotent.
  - eapply Qle_trans; [apply rnd_upper; lra |].
    assert (Hbb : 0 <= b * u) by (apply Qmult_le_0_compat; [exact Hb0 | apply unit_roundoff]).
    assert (Hsum : b + a <= B * (1 + u)) by lra.
    apply Qle_trans with (B * (1 + u) * (1 + u)).
    + apply Qmult_le_compat_r; [exact Hsum | lra].
    + apply Qle_lteq. right. change 2%Z with (0 + 1 + 1)%Z.
      rewrite !tolerance_succ. change ((1 + u) ^ 0) with 1. ring.
Qed.

(** In rounded arithmetic too, for a non-negative building value and a
    positive period, a higher bonus percentage never lowers the bonus
    depreciation and never raises the annual normal depreciation. *)
Theorem calculate_depreciation_monotone_in_bonus
    (property_value land_value dep_years low high : Q) :
  0 <= rnd (property_value - land_value) -> 0 < dep_years -> low <= high ->
  exists b1 n1 t1 b2 n2 t2,
    Num.calculate_depreciation (rounded rnd) property_value land_value dep_years low
      = Ok (b1, n1, t1) /\
    Num.calculate_depreciation (rounded rnd) property_value land_value dep_years high
      = Ok (b2, n2, t2) /\
    b1 <= b2 /\ n2 <= n1.
Proof.
  intros Hbv Hdy Hle.
  rewrite !rounded_calculate_depreciation_formula by (intros E; lra). cbv zeta.
  set (B := rnd (property_value - land_value)) in *.
  do 6 eexists. split; [reflexivity |]. split; [reflexivity |].
  assert (Hb : rnd (B * low) <= rnd (B * high)).
  { apply rnd_monotone.
    assert (0 <= B * (high - low)) by (apply Qmult_le_0_compat; lra). lra. }
  split; [exact Hb |].
  apply rnd_monotone. unfold Qdiv. apply Qmult_le_compat_r.
  - apply rnd_monotone. lra.
  - apply Qinv_le_0_compat. lra.
Qed.

End Rounding.


Lemma calculate_depreciation_bounds_witness :
  exists bonus normal total,
    Num.calculate_depreciation (rounded (fun x => x)) 10000000 2000000 (55 # 2) (4 # 10)
      = Ok (bonus, normal, total) /\
    0 <= bonus <= 10000000 - 2000000 /\
    0 <= normal <= 10000000 - 2000000 /\
    bonus <= total /\ normal <= total /\
    total <= (10000000 - 2000000) * (1 + 0) ^ 2.
Proof.
  apply (calculate_depreciation_bounds
           (model := exact_arithmetic) 10000000 2000000 (55 # 2) (4 # 10)).
  - vm_compute. discriminate.
  - vm_compute. discriminate.
  - split; vm_compute; discriminate.
Defined.

Lemma calculate_depreciation_monotone_in_bonus_witness :
  exists b1 n1 t1 b2 n2 t2,
    Num.calculate_depreciation (rounded (fun x => x)) 10000000 2000000 (55 # 2) (3 # 10)
      = Ok (b1, n1, t1) /\
    Num.calculate_depreciation (rounded (fun x => x)) 10000000 2000000 (55 # 2) (5 # 10)
      = Ok (b2, n2, t2) /\
    b1 <= b2 /\ n2 <= n1.
Proof.
  apply (calculate_depreciation_monotone_in_bonus
           (model := exact_arithmetic) 10000000 2000000 (55 # 2) (3 # 10) (5 # 10)).
  - vm_compute. discriminate.
  - reflexivity.
  - vm_compute. discriminate.
Defined.

(** ** Exact arithmetic and binary64 as instances *)

Lemma exact_depreciation_rows (annual_normal_dep bonus_dep dep_years : Q)
    (years : list Z) (cumulative : Q) :
  map (fun e => (fst e, exact_row (snd e)))
    (Num.depreciation_rows (rounded (fun x => x)) annual_normal_dep bonus_dep dep_years
       years cumulative)
    = depreciation_rows annual_normal_dep bonus_dep dep_years years cumulative.
Proof.
  revert cumulative. induction years as [| y ys IH]; intros c; [reflexivity |].
  cbn [Num.depreciation_rows depreciation_rows f_add f_zero f_year_le rounded].
  destruct (y =? 1)%Z; [| destruct (Qle_bool (inject_Z y) dep_years)];
    cbn [map fst snd]; rewrite IH; reflexivity.
Qed.

(** Without rounding, the functions over the number interface are the
    functions over the exact rationals. *)
Lemma exact_arithmetic_agrees
    (property_value land_value dep_years bonus_percent : Q) (years : Z) :
  Num.calculate_depreciation (rounded (fun x => x)) property_value land_value dep_years
      bonus_percent
    = calculate_depreciation property_value land_value dep_years bonus_percent /\
  (do df <- Num.multi_year_cash_flow (rounded (fun x => x)) property_value land_value
              dep_years bonus_percent years;
   Ok (map (fun e => (fst e, exact_row (snd e))) df))
    = multi_year_cash_flow property_value land_value dep_years bonus_percent years.
Proof.
  split.
  - reflexivity.
  - unfold Num.multi_year_cash_flow, multi_year_cash_flow, py_truediv.
    cbn [f_zero f_sub f_mul f_div rounded].
    destruct (Qeq_bool dep_years 0); [reflexivity |].
    cbn [bind]. now rewrite exact_depreciation_rows.
Qed.

#[local] Set Warnings "-inexact-float".

(** On the example scenario the floats of the machine give the amounts the
    application shows: 3,200,000.00, 174,545.45 and 3,374,545.45. *)
Example binary64_example_scenario :
  (Num.calculate_depreciation binary64 10000000 2000000 27.5 0.4)%float
    = Ok (3200000, 174545.45454545456, 3374545.4545454546)%float.
Proof. vm_compute. reflexivity. Qed.

(** Why the bounds carry a tolerance: in binary64 a 39-year schedule of a
    building of 8,000,000 with a bonus of 50% ends a little above the
    building value (and well within 8,000,000 * (1 + 2^-53)^41, which is
    above 8,000,000.00000003), and a first-year total can exceed the
    building value by one unit in the last place. *)
Example binary64_rounding_excess :
  (exists df,
     (Num.multi_year_cash_flow binary64 10000000 2000000 39 0.5 39)%float = Ok df /\
     List.last (float_column Num.Cumulative_Depreciation df) 0%float
       = 8000000.0000000149%float /\
     PrimFloat.ltb 8000000%float
       (List.last (float_column Num.Cumulative_Depreciation df) 0%float) = true /\
     PrimFloat.ltb
       (List.last (float_column Num.Cumulative_Depreciation df) 0%float)
       8000000.00000003%float = true) /\
  (exists bonus normal total,
     (Num.calculate_depreciation binary64 0.6 0 1 0.1)%float = Ok (bonus, normal, total) /\
     PrimFloat.ltb 0.6%float total = true).
Proof.
  split.
  - eexists. split; [vm_compute; reflexivity |]. repeat split; vm_compute; reflexivity.
  - do 3 eexists. split; vm_compute; reflexivity.
Qed.
